(** * Bedrock workshop notebooks: a shallow embedding of the two scripts

    The repository holds two Jupyter notebooks,

    - [Getting_started_with_Cross-region_Inference.ipynb]
      (helpers [print_ww] and [get_bedrock_client], then a walk through the
      inference-profile APIs and the invocation-logging set-up), and
    - [03_qa_w_rag_bedrock_titan_pgvector.ipynb]
      (a retrieval-augmented question-answering chain over PGVector).

    Both are sequences of calls into boto3 / LangChain.  The embedding keeps
    the part of the interpreter the notebooks touch as an explicit process
    state ([os.environ], [sys.stdout], the text streams, the warnings filter)
    and records every call that leaves the notebook (to an AWS client, to a
    LangChain object, to the file system) as an event of a trace; what such
    a call answers is decided by a [World], and whether boto3 can create a
    session or a client is decided by the [Machine] the process runs on; the
    theorems quantify over both. *)

From Stdlib Require Import ZArith Lia.
From stdpp Require Import base option list strings gmap pretty.

#[local] Set Warnings "-register-all".
#[local] Open Scope string_scope.
#[local] Open Scope Z_scope.
#[local] Open Scope list_scope.

(** ** Python values *)

(** The values the notebooks handle: JSON-like data, plus opaque objects
    (by class name and attributes) and text streams (by identity, so that
    aliasing of [sys.stdout] is visible). Floats are kept as their literal. *)
Inductive PyVal :=
| VNone
| VBool (b : bool)
| VInt (z : Z)
| VFloat (lit : string)
| VStr (s : string)
| VList (l : list PyVal)
| VDict (d : list (string * PyVal))
| VObject (cls : string) (attrs : list (string * PyVal))
| VStream (id : nat).

(** Exceptions: the modelled botocore service exceptions (one class per
    service and error code, as [client.exceptions.<Code>Exception]) and the
    built-in Python exceptions by class name. *)
Inductive Exn :=
| ServiceException (service code : string)
| PyExn (cls msg : string).

Inductive Outcome (A : Type) :=
| Ok (a : A)
| Raise (e : Exn).
Arguments Ok {A} a.
Arguments Raise {A} e.

(** [isinstance(e, client.exceptions.<code>Exception)] for the client of
    [service]. *)
Definition is_service_exception (service code : string) (e : Exn) : bool :=
  match e with
  | ServiceException s c => bool_decide (s = service) && bool_decide (c = code)
  | PyExn _ _ => false
  end.

(** [repr(v)]; string literals are quoted without escaping (exact for the
    strings without quotes, backslashes or control characters). *)
Fixpoint py_repr (v : PyVal) : string :=
  match v with
  | VNone => "None"
  | VBool true => "True"
  | VBool false => "False"
  | VInt z => pretty z
  | VFloat lit => lit
  | VStr s => "'" +:+ s +:+ "'"
  | VList l => "[" +:+ String.concat ", " (map py_repr l) +:+ "]"
  | VDict d =>
      "{" +:+ String.concat ", "
                (map (fun kv => "'" +:+ fst kv +:+ "': " +:+ py_repr (snd kv)) d)
          +:+ "}"
  | VObject cls _ => "<" +:+ cls +:+ " object>"
  | VStream id => "<stream " +:+ pretty id +:+ ">"
  end.

(** [str(v)], as used by [print] and by f-strings. *)
Definition py_str (v : PyVal) : string :=
  match v with
  | VStr s => s
  | _ => py_repr v
  end.

(** Python truthiness of the values the notebooks test. *)
Definition truthy_str (o : option string) : bool :=
  match o with
  | Some s => negb (String.eqb s EmptyString)
  | None => false
  end.

Definition truthy_bool (o : option bool) : bool :=
  match o with
  | Some b => b
  | None => false
  end.

(** [str(x)] of an [Optional[str]] inside an f-string. *)
Definition fmt_opt (o : option string) : string :=
  match o with
  | Some s => s
  | None => "None"
  end.

(** *** Dictionaries *)

Fixpoint assoc_get {V : Type} (k : string) (d : list (string * V)) : option V :=
  match d with
  | [] => None
  | (k', v) :: d' => if String.eqb k k' then Some v else assoc_get k d'
  end.

(** [d[k] = v]: an existing key keeps its position, a new one goes last. *)
Fixpoint assoc_set {V : Type} (k : string) (v : V) (d : list (string * V))
  : list (string * V) :=
  match d with
  | [] => [(k, v)]
  | (k', v') :: d' =>
      if String.eqb k k' then (k, v) :: d' else (k', v') :: assoc_set k v d'
  end.

(** A dict display [{k1: v1, ..., kn: vn}]: items are stored left to right,
    so a repeated key keeps the last value. *)
Definition py_dict (items : list (string * PyVal)) : PyVal :=
  VDict (fold_left (fun d kv => assoc_set (fst kv) (snd kv) d) items []).

(** [v[k]] *)
Definition subscript (v : PyVal) (k : string) : Outcome PyVal :=
  match v with
  | VDict d =>
      match assoc_get k d with
      | Some x => Ok x
      | None => Raise (PyExn "KeyError" k)
      end
  | _ => Raise (PyExn "TypeError" "object is not subscriptable")
  end.

(** [v[0]] *)
Definition subscript0 (v : PyVal) : Outcome PyVal :=
  match v with
  | VList (x :: _) => Ok x
  | VList [] => Raise (PyExn "IndexError" "list index out of range")
  | VDict _ => Raise (PyExn "KeyError" "0")
  | _ => Raise (PyExn "TypeError" "object is not subscriptable")
  end.

(** [v.get(k)] *)
Definition dict_get (v : PyVal) (k : string) : Outcome PyVal :=
  match v with
  | VDict d => Ok (default VNone (assoc_get k d))
  | _ => Raise (PyExn "AttributeError" "get")
  end.

(** [v.<name>] *)
Definition getattr (v : PyVal) (name : string) : Outcome PyVal :=
  match v with
  | VObject _ attrs =>
      match assoc_get name attrs with
      | Some x => Ok x
      | None => Raise (PyExn "AttributeError" name)
      end
  | _ => Raise (PyExn "AttributeError" name)
  end.

(** [len(v)] *)
Definition py_len (v : PyVal) : Outcome Z :=
  match v with
  | VList l => Ok (Z.of_nat (length l))
  | VDict d => Ok (Z.of_nat (length d))
  | VStr s => Ok (Z.of_nat (String.length s))
  | _ => Raise (PyExn "TypeError" "object has no len()")
  end.

(** Iteration over a value, as a [for] over it sees it. *)
Definition py_iter (v : PyVal) : Outcome (list PyVal) :=
  match v with
  | VList l => Ok l
  | VDict d => Ok (map (fun kv => VStr (fst kv)) d)
  | VStr s => Ok (map (fun c => VStr (String c EmptyString)) (String.list_ascii_of_string s))
  | _ => Raise (PyExn "TypeError" "object is not iterable")
  end.

(** *** JSON *)

Fixpoint json_serializable (v : PyVal) : bool :=
  match v with
  | VNone | VBool _ | VInt _ | VFloat _ | VStr _ => true
  | VList l => forallb json_serializable l
  | VDict d => forallb (fun kv => json_serializable (snd kv)) d
  | VObject _ _ | VStream _ => false
  end.

Definition dquote : string := String (Ascii.ascii_of_nat 34) EmptyString.

(** The text [json.dumps] writes (default separators; strings unescaped). *)
Fixpoint json_text (v : PyVal) : string :=
  match v with
  | VNone => "null"
  | VBool true => "true"
  | VBool false => "false"
  | VInt z => pretty z
  | VFloat lit => lit
  | VStr s => dquote +:+ s +:+ dquote
  | VList l => "[" +:+ String.concat ", " (map json_text l) +:+ "]"
  | VDict d =>
      "{" +:+ String.concat ", "
                (map (fun kv => dquote +:+ fst kv +:+ dquote +:+ ": " +:+ json_text (snd kv)) d)
          +:+ "}"
  | VObject _ _ | VStream _ => EmptyString
  end.

(** The class of the first value, in the order [json.dumps] walks through
    [v], that it cannot write (a stream is reported as a [StringIO]). *)
Fixpoint unserializable_type (v : PyVal) : option string :=
  match v with
  | VNone | VBool _ | VInt _ | VFloat _ | VStr _ => None
  | VList l =>
      (fix first (l : list PyVal) : option string :=
         match l with
         | [] => None
         | x :: rest =>
             match unserializable_type x with
             | Some cls => Some cls
             | None => first rest
             end
         end) l
  | VDict d =>
      (fix first (d : list (string * PyVal)) : option string :=
         match d with
         | [] => None
         | (_, x) :: rest =>
             match unserializable_type x with
             | Some cls => Some cls
             | None => first rest
             end
         end) d
  | VObject cls _ => Some cls
  | VStream _ => Some "StringIO"
  end.

(** [json.dumps(v)] *)
Definition json_dumps (v : PyVal) : Outcome string :=
  if json_serializable v then Ok (json_text v)
  else Raise (PyExn "TypeError"
                ("Object of type " +:+ default "object" (unserializable_type v)
                   +:+ " is not JSON serializable")).

(** [json.loads(body.read())] on the [StreamingBody] of a response: the body
    object carries the document its bytes encode (attribute [document]);
    bytes that are not JSON carry none. *)
Definition json_loads_read (body : PyVal) : Outcome PyVal :=
  match body with
  | VObject _ attrs =>
      match assoc_get "document" attrs with
      | Some doc => Ok doc
      | None => Raise (PyExn "JSONDecodeError" "Expecting value")
      end
  | _ => Raise (PyExn "AttributeError" "read")
  end.

(** ** Clients, library objects and the outside world *)

(** [botocore.config.Config(region_name=..., retries={...})] *)
Record Config := {
  cfg_region_name : option string;
  cfg_max_attempts : Z;
  cfg_mode : string;
}.

(** A [boto3.Session], created from [session_kwargs]. *)
Record Session := {
  s_region_name : option string;
  s_profile_name : option string;
}.

(** A boto3 client, by what it was created with. *)
Record Client := {
  client_service : string;
  client_region : option string;
  client_profile : option string;
  client_config : option Config;
  client_access_key_id : option PyVal;
  client_secret_access_key : option PyVal;
  client_session_token : option PyVal;
}.

(** The receivers of the calls that leave the notebook: a boto3 client, or an
    object of a third-party library (class, constructor arguments, and the
    objects it was built from). *)
Inductive Obj :=
| OClient (c : Client)
| OLib (cls : string) (params : list (string * PyVal)) (parts : list (string * Obj)).

(** One call that left the notebook, with what came back. *)
Record Event := {
  ev_recv : Obj;
  ev_method : string;
  ev_args : list (string * PyVal);
  ev_result : Outcome PyVal;
}.

(** What the notebooks do not control: the answer to each call (which may
    depend on everything that happened before), the wall clock in
    microseconds at each reading, the installed boto3 version, and the exit
    status of each shell command. *)
Record World := {
  respond : list Event -> Obj -> string -> list (string * PyVal) -> Outcome PyVal;
  clock : nat -> Z;
  boto3_version : string;
  shell_status : list Event -> string -> Z;
}.

(** What boto3 finds on the machine when it is asked for a session or a
    client: the profiles and regions of the AWS configuration files, the
    service data of the installed botocore. Where something is missing or
    malformed it raises ([ProfileNotFound], [NoRegionError],
    [UnknownServiceError], [InvalidRegionError], ...) instead of giving the
    object; which exception, if any, a request meets is the machine's to
    say. botocore reads the environment as well ([AWS_PROFILE],
    [AWS_CONFIG_FILE], ...), so the machine is asked with the environment of
    the moment. *)
Record Machine := {
  session_error : gmap string string -> Session -> option Exn;
  client_error : gmap string string -> Client -> option Exn;
}.

(** ** Process state *)

(** The entries of [warnings_filters] are the installed filters; a filter
    made by [warnings.filterwarnings(action)], all other fields at their
    defaults, is written as its action. *)
Record Proc := {
  environ : gmap string string;      (* os.environ *)
  sys_stdout : PyVal;                (* the object bound to sys.stdout *)
  streams : gmap nat string;         (* open text streams and what was written *)
  warnings_filters : list string;    (* warnings.filters, newest first *)
  trace : list Event;                (* calls made so far, oldest first *)
  clock_reads : nat;                 (* number of time() readings so far *)
  displayed : list PyVal;            (* cell results shown by the notebook *)
  machine : Machine;                 (* the machine the process runs on *)
}.

Definition set_environ (f : gmap string string -> gmap string string) (st : Proc) : Proc :=
  {| environ := f (environ st); sys_stdout := sys_stdout st; streams := streams st;
     warnings_filters := warnings_filters st; trace := trace st;
     clock_reads := clock_reads st; displayed := displayed st;
     machine := machine st |}.

Definition set_sys_stdout (v : PyVal) (st : Proc) : Proc :=
  {| environ := environ st; sys_stdout := v; streams := streams st;
     warnings_filters := warnings_filters st; trace := trace st;
     clock_reads := clock_reads st; displayed := displayed st;
     machine := machine st |}.

Definition set_streams (f : gmap nat string -> gmap nat string) (st : Proc) : Proc :=
  {| environ := environ st; sys_stdout := sys_stdout st; streams := f (streams st);
     warnings_filters := warnings_filters st; trace := trace st;
     clock_reads := clock_reads st; displayed := displayed st;
     machine := machine st |}.

Definition set_warnings_filters (f : list string -> list string) (st : Proc) : Proc :=
  {| environ := environ st; sys_stdout := sys_stdout st; streams := streams st;
     warnings_filters := f (warnings_filters st); trace := trace st;
     clock_reads := clock_reads st; displayed := displayed st;
     machine := machine st |}.

Definition set_trace (f : list Event -> list Event) (st : Proc) : Proc :=
  {| environ := environ st; sys_stdout := sys_stdout st; streams := streams st;
     warnings_filters := warnings_filters st; trace := f (trace st);
     clock_reads := clock_reads st; displayed := displayed st;
     machine := machine st |}.

Definition set_clock_reads (f : nat -> nat) (st : Proc) : Proc :=
  {| environ := environ st; sys_stdout := sys_stdout st; streams := streams st;
     warnings_filters := warnings_filters st; trace := trace st;
     clock_reads := f (clock_reads st); displayed := displayed st;
     machine := machine st |}.

Definition set_displayed (f : list PyVal -> list PyVal) (st : Proc) : Proc :=
  {| environ := environ st; sys_stdout := sys_stdout st; streams := streams st;
     warnings_filters := warnings_filters st; trace := trace st;
     clock_reads := clock_reads st; displayed := f (displayed st);
     machine := machine st |}.

(** ** The script monad: state, exceptions, and a world to ask *)

Definition M (A : Type) : Type := World -> Proc -> Outcome A * Proc.

#[export] Instance M_ret : MRet M := fun A a _ st => (Ok a, st).

#[export] Instance M_bind : MBind M := fun A B f m w st =>
  match m w st with
  | (Ok a, st') => f a w st'
  | (Raise e, st') => (Raise e, st')
  end.

Definition raise {A : Type} (e : Exn) : M A := fun _ st => (Raise e, st).

(** A pure Python operation that may raise. *)
Definition lift {A : Type} (o : Outcome A) : M A := fun _ st => (o, st).

(** [try: body finally: final] *)
Definition try_finally {A : Type} (body : M A) (final : M unit) : M A := fun w st =>
  match body w st with
  | (Ok a, st') =>
      match final w st' with
      | (Ok _, st'') => (Ok a, st'')
      | (Raise e, st'') => (Raise e, st'')
      end
  | (Raise e, st') =>
      match final w st' with
      | (Ok _, st'') => (Raise e, st'')
      | (Raise e', st'') => (Raise e', st'')
      end
  end.

(** [try: body except <class>: handler], the class given by its test. *)
Definition try_except {A : Type} (body : M A) (matches : Exn -> bool) (handler : M A)
  : M A := fun w st =>
  match body w st with
  | (Ok a, st') => (Ok a, st')
  | (Raise e, st') => if matches e then handler w st' else (Raise e, st')
  end.

(** A call that leaves the notebook: the world answers, the trace grows. *)
Definition call (recv : Obj) (method : string) (args : list (string * PyVal)) : M PyVal :=
  fun w st =>
    let r := respond w (trace st) recv method args in
    (r, set_trace (fun t => t ++ [{| ev_recv := recv; ev_method := method;
                                     ev_args := args; ev_result := r |}]) st).

(** A [!command] or [%pip] line of a cell: run by the shell; the exit status
    is recorded, and no exception reaches the notebook whatever it is. *)
Definition shell (command : string) : M unit :=
  fun w st =>
    (Ok tt,
     set_trace (fun t => t ++ [{| ev_recv := OLib "shell" [] []; ev_method := "system";
                                  ev_args := [("command", VStr command)];
                                  ev_result := Ok (VInt (shell_status w (trace st) command)) |}])
               st).

(** [boto3.__version__] *)
Definition read_boto3_version : M string := fun w st => (Ok (boto3_version w), st).

(** [os.environ.get(k)] and [os.environ.get(k, default)] *)
Definition environ_get (k : string) : M (option string) :=
  fun _ st => (Ok (environ st !! k), st).

Definition environ_get_default (k : string) (d : option string) : M (option string) :=
  fun _ st => (Ok (match environ st !! k with Some v => Some v | None => d end), st).

(** [os.environ[k] = v] *)
Definition environ_set (k v : string) : M unit :=
  fun _ st => (Ok tt, set_environ (insert k v) st).

(** [filters.remove(item)], a missing item passed over: the first entry
    equal to [a] goes. *)
Fixpoint remove_first (a : string) (l : list string) : list string :=
  match l with
  | [] => []
  | x :: rest => if String.eqb a x then rest else x :: remove_first a rest
  end.

(** [warnings.filterwarnings(action)]: the filter goes to the front of the
    list, an entry equal to it being removed first. *)
Definition filterwarnings (action : string) : M unit :=
  fun _ st => (Ok tt, set_warnings_filters (fun fs => action :: remove_first action fs) st).

(** [time()] in microseconds *)
Definition time : M Z :=
  fun w st => (Ok (clock w (clock_reads st)), set_clock_reads S st).

(** [int(end - start)] seconds *)
Definition elapsed_seconds (start finish : Z) : Z := (finish - start) `quot` 1000000.

(** The value of the last expression of a cell, shown by the notebook. *)
Definition display (v : PyVal) : M unit :=
  fun _ st => (Ok tt, set_displayed (fun d => d ++ [v]) st).

(** *** Streams and [print] *)

Definition newline : string := String (Ascii.ascii_of_nat 10) EmptyString.

Definition read_sys_stdout : M PyVal := fun _ st => (Ok (sys_stdout st), st).

Definition write_sys_stdout (v : PyVal) : M unit := fun _ st => (Ok tt, set_sys_stdout v st).

(** [StringIO()]: a new, empty stream, distinct from every open one. *)
Definition StringIO : M PyVal := fun _ st =>
  let id := fresh (dom (streams st)) in
  (Ok (VStream id), set_streams (insert id EmptyString) st).

(** [file.write(s)] *)
Definition file_write (file : PyVal) (s : string) : M unit := fun _ st =>
  match file with
  | VStream id =>
      match streams st !! id with
      | Some old => (Ok tt, set_streams (insert id (old +:+ s)) st)
      | None => (Raise (PyExn "ValueError" "I/O operation on closed file"), st)
      end
  | _ => (Raise (PyExn "AttributeError" "write"), st)
  end.

(** [buffer.getvalue()] *)
Definition getvalue (file : PyVal) : M string := fun _ st =>
  match file with
  | VStream id =>
      match streams st !! id with
      | Some s => (Ok s, st)
      | None => (Raise (PyExn "ValueError" "I/O operation on closed file"), st)
      end
  | _ => (Raise (PyExn "AttributeError" "getvalue"), st)
  end.

(** The [sep] and [end] arguments of [print]: a string, or [None] for the
    default. *)
Definition print_text_option (name : string) (dflt : string) (v : option PyVal)
  : Outcome string :=
  match v with
  | None | Some VNone => Ok dflt
  | Some (VStr s) => Ok s
  | Some _ => Raise (PyExn "TypeError" (name +:+ " must be None or a string"))
  end.

Definition print_keywords : list string := ["sep"; "end"; "file"; "flush"].

(** The arguments written one after the other, [sep] in between. *)
Fixpoint print_items (file : PyVal) (sep : string) (first : bool) (args : list PyVal)
  : M unit :=
  match args with
  | [] => mret tt
  | a :: rest =>
      (if first then mret tt else file_write file sep) ;;
      file_write file (py_str a) ;;
      print_items file sep false rest
  end.

(** The built-in [print], with its positional and keyword arguments. The
    [TypeError] for a keyword it does not know is worded as by Python 3.11,
    the version of the notebooks' kernels. *)
Definition print (args : list PyVal) (kwargs : list (string * PyVal)) : M unit :=
  match filter (fun kv => negb (bool_decide (fst kv ∈ print_keywords))) kwargs with
  | (k, _) :: _ =>
      raise (PyExn "TypeError"
               ("'" +:+ k +:+ "' is an invalid keyword argument for print()"))
  | [] =>
      out ← read_sys_stdout ;
      let file := match assoc_get "file" kwargs with
                  | None | Some VNone => out
                  | Some f => f
                  end in
      match file with
      | VNone => mret tt
      | _ =>
          sep ← lift (print_text_option "sep" " " (assoc_get "sep" kwargs)) ;
          end_ ← lift (print_text_option "end" newline (assoc_get "end" kwargs)) ;
          print_items file sep true args ;;
          file_write file end_
      end
  end.

(** [print(s)] of one string. *)
Definition print_str (s : string) : M unit := print [VStr s] [].

(** [for x in xs: body(x)] *)
Fixpoint for_each {A : Type} (xs : list A) (body : A -> M unit) : M unit :=
  match xs with
  | [] => mret tt
  | x :: rest => body x ;; for_each rest body
  end.

(** *** [str.splitlines] *)

(** The line boundaries of [str.splitlines] among the code points below 256:
    LF, VT, FF, CR, FS, GS, RS and NEL. *)
Definition is_linebreak (c : Ascii.ascii) : bool :=
  bool_decide (Ascii.nat_of_ascii c ∈ [10; 11; 12; 13; 28; 29; 30; 133]%nat).

Fixpoint splitlines_from (cur : string) (s : string) : list string :=
  match s with
  | EmptyString => if String.eqb cur EmptyString then [] else [cur]
  | String c s' =>
      if bool_decide (Ascii.nat_of_ascii c = 13%nat) then
        match s' with
        | String c' s'' =>
            if bool_decide (Ascii.nat_of_ascii c' = 10%nat)
            then cur :: splitlines_from EmptyString s''
            else cur :: splitlines_from EmptyString s'
        | EmptyString => [cur]
        end
      else if is_linebreak c then cur :: splitlines_from EmptyString s'
      else splitlines_from (cur +:+ String c EmptyString) s'
  end.

Definition splitlines (s : string) : list string := splitlines_from EmptyString s.

(** ** Cross-region notebook: the helper cell *)

Section Helpers.

(** What [textwrap.wrap(text, width=width)] of the Python standard library
    gives for a positive width. *)
Variable textwrap_wrap : string -> Z -> list string.

(** [textwrap.wrap(text, width=width)]: a width that is not positive is
    refused with a [ValueError], whatever the text. *)
Definition wrap_text (text : string) (width : Z) : Outcome (list string) :=
  if 0 <? width then Ok (textwrap_wrap text width)
  else Raise (PyExn "ValueError" ("invalid width " +:+ pretty width +:+ " (must be > 0)")).

(** [print_ww( *args, width=100, **kwargs )]. The first statement of the
    [try] block, [_stdout = sys.stdout], cannot raise; it is bound before the
    block so that the [finally] clause can name it. *)
Definition print_ww (args : list PyVal) (width : Z) (kwargs : list (string * PyVal))
  : M unit :=
  buffer ← StringIO ;
  _stdout ← read_sys_stdout ;
  output ← try_finally
             (write_sys_stdout buffer ;;
              print args kwargs ;;
              getvalue buffer)
             (write_sys_stdout _stdout) ;
  for_each (splitlines output)
           (fun line =>
              pieces ← lift (wrap_text line width) ;
              print_str (String.concat newline pieces)).

End Helpers.

Definition option_to_py (o : option string) : PyVal :=
  match o with
  | Some s => VStr s
  | None => VNone
  end.

(** [Config(region_name=target_region, retries={max_attempts: 10, mode: standard})] *)
Definition retry_config (target_region : option string) : Config :=
  {| cfg_region_name := target_region; cfg_max_attempts := 10; cfg_mode := "standard" |}.

(** [boto3.Session] on the session arguments: the session, unless the machine
    refuses it. *)
Definition boto3_Session (session_kwargs : Session) : M Session := fun _ st =>
  match session_error (machine st) (environ st) session_kwargs with
  | Some e => (Raise e, st)
  | None => (Ok session_kwargs, st)
  end.

(** The client [session.client(service_name, config=..., **client_kwargs)]
    gives when it gives one: the keyword arguments override what the session
    holds. *)
Definition new_client (session : Session) (service : string) (cfg : option Config)
    (client_kwargs : list (string * PyVal)) : Client :=
  {| client_service := service;
     client_region := match assoc_get "region_name" client_kwargs with
                      | Some (VStr r) => Some r
                      | _ => s_region_name session
                      end;
     client_profile := s_profile_name session;
     client_config := cfg;
     client_access_key_id := assoc_get "aws_access_key_id" client_kwargs;
     client_secret_access_key := assoc_get "aws_secret_access_key" client_kwargs;
     client_session_token := assoc_get "aws_session_token" client_kwargs |}.

(** [session.client(service_name, config=..., **client_kwargs)]: the client,
    unless the machine refuses it. *)
Definition session_client (session : Session) (service : string) (cfg : option Config)
    (client_kwargs : list (string * PyVal)) : M Client := fun _ st =>
  match client_error (machine st) (environ st) (new_client session service cfg client_kwargs) with
  | Some e => (Raise e, st)
  | None => (Ok (new_client session service cfg client_kwargs), st)
  end.

(** The client [boto3.client(service, region_name=...)] gives, on the default
    session, when it gives one. *)
Definition boto3_default_client (service : string) (region : option string) : Client :=
  new_client {| s_region_name := None; s_profile_name := None |} service None
             (match region with Some r => [("region_name", VStr r)] | None => [] end).

(** [boto3.client(service, region_name=...)]: the client, unless the machine
    refuses it. *)
Definition boto3_client (service : string) (region : option string) : M Client := fun _ st =>
  match client_error (machine st) (environ st) (boto3_default_client service region) with
  | Some e => (Raise e, st)
  | None => (Ok (boto3_default_client service region), st)
  end.

(** What [print(client._endpoint)] writes: botocore's endpoint prefix and
    host, the host after the regional pattern. *)
Definition endpoint_repr (c : Client) : string :=
  client_service c +:+ "(https://" +:+ client_service c +:+ "."
    +:+ fmt_opt (client_region c) +:+ ".amazonaws.com)".

(** [str(client)], the object address left out. *)
Definition client_repr (c : Client) : string :=
  "<botocore.client." +:+ client_service c +:+ " object>".

(** [get_bedrock_client(assumed_role=None, region=None, runtime=True,
    service_name=None)] *)
Definition get_bedrock_client (assumed_role region : option string)
    (runtime : option bool) (service_name : option string) : M Client :=
  target_region ← match region with
                  | None =>
                      dflt ← environ_get "AWS_DEFAULT_REGION" ;
                      environ_get_default "AWS_REGION" dflt
                  | Some r => mret (Some r)
                  end ;
  print_str ("Create new client" +:+ newline +:+ "  Using region: "
               +:+ fmt_opt target_region) ;;
  let session_kwargs := {| s_region_name := target_region; s_profile_name := None |} in
  let client_kwargs := [("region_name", option_to_py target_region)] in
  profile ← environ_get "AWS_PROFILE" ;
  session_kwargs ←
    (if truthy_str profile then
       print_str ("  Using profile: " +:+ fmt_opt profile) ;;
       mret {| s_region_name := target_region; s_profile_name := profile |}
     else mret session_kwargs) ;
  let retry_config := retry_config target_region in
  session ← boto3_Session session_kwargs ;
  client_kwargs ←
    (if truthy_str assumed_role then
       print [VStr ("  Using role: " +:+ fmt_opt assumed_role)] [("end", VStr EmptyString)] ;;
       sts ← session_client session "sts" None [] ;
       response ← call (OClient sts) "assume_role"
                       [("RoleArn", VStr (fmt_opt assumed_role));
                        ("RoleSessionName", VStr "langchain-llm-1")] ;
       print_str " ... successful!" ;;
       credentials ← lift (subscript response "Credentials") ;
       key_id ← lift (subscript credentials "AccessKeyId") ;
       let client_kwargs := assoc_set "aws_access_key_id" key_id client_kwargs in
       credentials ← lift (subscript response "Credentials") ;
       secret ← lift (subscript credentials "SecretAccessKey") ;
       let client_kwargs := assoc_set "aws_secret_access_key" secret client_kwargs in
       credentials ← lift (subscript response "Credentials") ;
       token ← lift (subscript credentials "SessionToken") ;
       mret (assoc_set "aws_session_token" token client_kwargs)
     else mret client_kwargs) ;
  let service_name :=
    if negb (truthy_str service_name) then
      if truthy_bool runtime then "bedrock-runtime" else "bedrock"
    else fmt_opt service_name in
  bedrock_client ← session_client session service_name (Some retry_config) client_kwargs ;
  print_str "boto3 Bedrock client successfully created!" ;;
  print_str (endpoint_repr bedrock_client) ;;
  mret bedrock_client.

(** ** Cross-region notebook: the cells *)

Module CrossRegion.

(** Cell 3 (after the imports and the two helper definitions). *)
Definition cell_helpers : M unit := filterwarnings "ignore".

(** Cell 4 *)
Definition cell_list_foundation_models : M unit :=
  environ_set "AWS_PROFILE" "profile_acct_4" ;;
  boto3_client ← get_bedrock_client None (Some "us-east-1") (Some false) None ;
  out ← call (OClient boto3_client) "list_foundation_models" [] ;
  display out.

(** Cell 5 *)
Definition cell_version : M unit :=
  v ← read_boto3_version ;
  print_str v.

Definition region_name : string := "us-east-1".

(** Cell 7: the account id and the two clients the later cells use. *)
Definition cell_clients : M (PyVal * Client * Client) :=
  environ_set "AWS_PROFILE" "profile_acct_4" ;;
  sts ← get_bedrock_client None (Some region_name) (Some true) (Some "sts") ;
  identity ← call (OClient sts) "get_caller_identity" [] ;
  account_id ← lift (dict_get identity "Account") ;
  bedrock_client ← get_bedrock_client None (Some region_name) (Some true) (Some "bedrock") ;
  bedrock_runtime ←
    get_bedrock_client None (Some region_name) (Some true) (Some "bedrock-runtime") ;
  print [account_id; VStr (client_repr bedrock_client); VStr (client_repr bedrock_client)] [] ;;
  mret (account_id, bedrock_client, bedrock_runtime).

(** Cell 9 *)
Definition cell_list_inference_profiles (bedrock_client : Client) : M unit :=
  response ← call (OClient bedrock_client) "list_inference_profiles" [] ;
  summaries ← lift (subscript response "inferenceProfileSummaries") ;
  display summaries.

(** Cell 11 *)
Definition cell_get_inference_profile (bedrock_client : Client) : M unit :=
  out ← call (OClient bedrock_client) "get_inference_profile"
             [("inferenceProfileIdentifier",
               VStr "us.anthropic.claude-3-5-sonnet-20240620-v1:0")] ;
  display out.

Definition system_prompt : string :=
  "You are an expert on AWS services and always provide correct and concise answers.".

Definition input_message : string :=
  "Should I be storing documents in Amazon S3 or EFS for cost effective applications?".

(** The keyword arguments of the [converse] calls of cells 15 and 17. *)
Definition converse_args (model : string) : list (string * PyVal) :=
  [("modelId", VStr model);
   ("system", VList [py_dict [("text", VStr system_prompt)]]);
   ("messages",
    VList [py_dict [("role", VStr "user");
                    ("content", VList [py_dict [("text", VStr input_message)]])]])].

(** Cell 15: the Converse API, once per identifier of the list. *)
Definition cell_converse (bedrock_runtime : Client) : M unit :=
  let modelId := ("Foundation Model", "anthropic.claude-3-haiku-20240307-v1:0") in
  let inferenceProfileId :=
    ("Inference Profile", "us.anthropic.claude-3-haiku-20240307-v1:0") in
  for_each [modelId; inferenceProfileId] (fun '(inference_type, id) =>
    start ← time ;
    response ← call (OClient bedrock_runtime) "converse" (converse_args id) ;
    end_ ← time ;
    print_str ("::" +:+ inference_type +:+ "::Response time: "
                 +:+ pretty (elapsed_seconds start end_) +:+ " second(s)") ;;
    print_str ("::model:id:" +:+ id +:+ "::Response time: "
                 +:+ pretty (elapsed_seconds start end_) +:+ " second(s)") ;;
    output ← lift (subscript response "output") ;
    message ← lift (subscript output "message") ;
    content ← lift (subscript message "content") ;
    print_str ("::" +:+ inference_type +:+ "::Response output: " +:+ py_str content)).

(** Cell 17: the Converse API again, the profile named by its ARN. *)
Definition inference_profile_arn (account_id : PyVal) : string :=
  "arn:aws:bedrock:" +:+ region_name +:+ ":" +:+ py_str account_id
    +:+ ":inference-profile/" +:+ "us.anthropic.claude-3-sonnet-20240229-v1:0".

Definition cell_converse_arn (account_id : PyVal) (bedrock_runtime : Client) : M unit :=
  let inference_profile_arn := inference_profile_arn account_id in
  print_str inference_profile_arn ;;
  response ← call (OClient bedrock_runtime) "converse" (converse_args inference_profile_arn) ;
  output ← lift (subscript response "output") ;
  message ← lift (subscript output "message") ;
  content ← lift (subscript message "content") ;
  first ← lift (subscript0 content) ;
  text ← lift (subscript first "text") ;
  print [text] [].

(** The request body of cell 19, before [json.dumps]. *)
Definition invoke_body : PyVal :=
  py_dict [("anthropic_version", VStr "bedrock-2023-05-31");
           ("max_tokens", VInt 1024);
           ("temperature", VFloat "0.1");
           ("top_p", VFloat "0.9");
           ("system", VStr system_prompt);
           ("messages",
            VList [py_dict [("role", VStr "user");
                            ("content",
                             VList [py_dict [("type", VStr "text");
                                             ("text", VStr input_message)]])]])].

(** Cell 19: the InvokeModel API, once per identifier of the list. *)
Definition cell_invoke_model (bedrock_runtime : Client) : M unit :=
  body ← lift (json_dumps invoke_body) ;
  let accept := "application/json" in
  let contentType := "application/json" in
  let modelId := ("Foundation Model", "anthropic.claude-3-sonnet-20240229-v1:0") in
  let inferenceProfileId :=
    ("Inference Profile", "us.anthropic.claude-3-sonnet-20240229-v1:0") in
  for_each [modelId; inferenceProfileId] (fun '(inference_type, id) =>
    start ← time ;
    response ← call (OClient bedrock_runtime) "invoke_model"
                    [("body", VStr body); ("modelId", VStr id);
                     ("accept", VStr accept); ("contentType", VStr contentType)] ;
    end_ ← time ;
    raw ← lift (dict_get response "body") ;
    response_body ← lift (json_loads_read raw) ;
    print_str ("::" +:+ inference_type +:+ "::Response time: "
                 +:+ pretty (elapsed_seconds start end_) +:+ " second(s)") ;;
    content ← lift (subscript response_body "content") ;
    first ← lift (subscript0 content) ;
    text ← lift (subscript first "text") ;
    print_str ("::" +:+ inference_type +:+ "::Response output: " +:+ py_str text)).

(** Cell 21 *)
Definition cell_pip : M unit :=
  shell "pip install --quiet langchain_aws langchain_community".

(** The chat messages of cells 23 to 27 (tuples as lists). *)
Definition messages : PyVal :=
  VList [VList [VStr "system";
                VStr "You are a helpful assistant that shapes sentences into poetic form. Translate the user sentence."];
         VList [VStr "human"; VStr "I love programming."]].

(** [print(llm.invoke(input).content)] *)
Definition print_invoke (llm : Obj) (input : PyVal) : M unit :=
  reply ← call llm "invoke" [("input", input)] ;
  content ← lift (getattr reply "content") ;
  print [content] [].

(** Cell 23 *)
Definition cell_chat_converse (bedrock_runtime : Client) : M unit :=
  let llm := OLib "ChatBedrockConverse"
                  [("model", VStr "us.anthropic.claude-3-sonnet-20240229-v1:0");
                   ("temperature", VInt 0);
                   ("max_tokens", VNone)]
                  [("client", OClient bedrock_runtime)] in
  print_invoke llm messages.

(** Cell 25 *)
Definition cell_chat_bedrock_converse (bedrock_runtime : Client) : M unit :=
  let model_parameter := py_dict [("temperature", VFloat "0.0"); ("top_p", VFloat ".5");
                                  ("max_tokens_to_sample", VInt 200)] in
  let llm := OLib "ChatBedrock"
                  [("model_id", VStr "us.anthropic.claude-3-sonnet-20240229-v1:0");
                   ("model_kwargs", model_parameter);
                   ("beta_use_converse_api", VBool true);
                   ("region_name", VStr "us-east-1")]
                  [("client", OClient bedrock_runtime)] in
  print_invoke llm messages.

(** The model object of cells 27 and 29. *)
Definition chat_bedrock_haiku (bedrock_runtime : Client) : Obj :=
  let model_parameter := py_dict [("temperature", VFloat "0.0"); ("top_p", VFloat ".5")] in
  OLib "ChatBedrock"
       [("provider", VStr "anthropic");
        ("model_id", VStr "us.anthropic.claude-3-haiku-20240307-v1:0");
        ("model_kwargs", model_parameter)]
       [("client", OClient bedrock_runtime)].

(** Cell 27 *)
Definition cell_chat_bedrock (bedrock_runtime : Client) : M unit :=
  print_invoke (chat_bedrock_haiku bedrock_runtime) messages.

(** Cell 29: the same, the messages given as a JSON text. *)
Definition messages_body : PyVal :=
  py_dict [("anthropic_version", VStr "bedrock-2023-05-31");
           ("max_tokens", VInt 1024);
           ("temperature", VFloat "0.1");
           ("top_p", VFloat "0.9");
           ("system",
            VStr "You are a helpful assistant that shapes sentences into poetic form. Translate the user sentence.");
           ("messages",
            VList [py_dict [("role", VStr "user");
                            ("content",
                             VList [py_dict [("type", VStr "text");
                                             ("text", VStr "I love programming.")]])]])].

Definition cell_chat_bedrock_json (bedrock_runtime : Client) : M unit :=
  messages ← lift (json_dumps messages_body) ;
  print_invoke (chat_bedrock_haiku bedrock_runtime) (VStr messages).

Definition log_group_name : string := "bedrock-model-invocation-logging".
Definition role_name : string := "AmazonBedrockModelInvocationCWDeliveryRole".

Definition assume_role_policy_doc (account_id : PyVal) : PyVal :=
  py_dict
    [("Version", VStr "2012-10-17");
     ("Statement",
      VList [py_dict
               [("Effect", VStr "Allow");
                ("Principal", py_dict [("Service", VStr "bedrock.amazonaws.com")]);
                ("Action", VStr "sts:AssumeRole");
                ("Condition",
                 py_dict
                   [("StringEquals", py_dict [("aws:SourceAccount", account_id)]);
                    ("ArnLike",
                     py_dict [("aws:SourceArn",
                               VStr ("arn:aws:bedrock:" +:+ region_name +:+ ":"
                                       +:+ py_str account_id +:+ ":*"))])])]])].

Definition policy_doc (account_id : PyVal) : PyVal :=
  py_dict
    [("Version", VStr "2012-10-17");
     ("Statement",
      VList [py_dict
               [("Effect", VStr "Allow");
                ("Action", VList [VStr "logs:CreateLogStream"; VStr "logs:PutLogEvents"]);
                ("Resource",
                 VStr ("arn:aws:logs:" +:+ region_name +:+ ":" +:+ py_str account_id
                         +:+ ":log-group:" +:+ log_group_name
                         +:+ ":log-stream:aws/bedrock/modelinvocations"))]])].

(** The [loggingConfig] display of cell 31; it names
    [imageDataDeliveryEnabled] twice. *)
Definition loggingConfig (account_id : PyVal) : PyVal :=
  py_dict
    [("cloudWatchConfig",
      py_dict [("logGroupName", VStr log_group_name);
               ("roleArn",
                VStr ("arn:aws:iam::" +:+ py_str account_id +:+ ":role/" +:+ role_name))]);
     ("imageDataDeliveryEnabled", VBool false);
     ("imageDataDeliveryEnabled", VBool false);
     ("embeddingDataDeliveryEnabled", VBool false)].

(** Cell 31: the role, the log group and the invocation-logging
    configuration. The two [try] statements pass over the one exception
    class each names. The two clients are those [boto3.client] gives for IAM
    and CloudWatch Logs in the region written out; their creation is not a
    step that can fail here: the default session reads the profile of
    [AWS_PROFILE], for which the helper has created its sessions before this
    cell is reached. *)
Definition cell_logging (account_id : PyVal) (bedrock_client : Client) : M Client :=
  let iam_client := boto3_default_client "iam" (Some region_name) in
  try_except
    (doc ← lift (json_dumps (assume_role_policy_doc account_id)) ;
     call (OClient iam_client) "create_role"
          [("RoleName", VStr role_name); ("AssumeRolePolicyDocument", VStr doc)] ;;
     mret tt)
    (is_service_exception "iam" "EntityAlreadyExists")
    (mret tt) ;;
  doc ← lift (json_dumps (policy_doc account_id)) ;
  call (OClient iam_client) "put_role_policy"
       [("RoleName", VStr role_name); ("PolicyName", VStr role_name);
        ("PolicyDocument", VStr doc)] ;;
  let logs_client := boto3_default_client "logs" (Some region_name) in
  try_except
    (call (OClient logs_client) "create_log_group" [("logGroupName", VStr log_group_name)] ;;
     mret tt)
    (is_service_exception "logs" "ResourceAlreadyExists")
    (mret tt) ;;
  call (OClient logs_client) "put_retention_policy"
       [("logGroupName", VStr log_group_name); ("retentionInDays", VInt 365)] ;;
  call (OClient bedrock_client) "put_model_invocation_logging_configuration"
       [("loggingConfig", loggingConfig account_id)] ;;
  mret logs_client.

(** Cell 33: the metric filter counting the re-routed invocations. *)
Definition cell_metric_filter (logs_client : Client) : M unit :=
  out ← call (OClient logs_client) "put_metric_filter"
             [("logGroupName", VStr log_group_name);
              ("filterName", VStr "bedrock_cross_region_inference_rerouted");
              ("filterPattern",
               VStr ("{ $.inferenceRegion != " +:+ dquote +:+ region_name +:+ dquote +:+ " }"));
              ("metricTransformations",
               VList [py_dict [("metricNamespace", VStr "Custom");
                               ("metricName", VStr "bedrock_cross_region_inference_rerouted");
                               ("metricValue", VStr "1");
                               ("defaultValue", VInt 0);
                               ("unit", VStr "Count")]])] ;
  display out.

(** The notebook, its code cells run top to bottom; an exception that leaves
    a cell stops the run. *)
Definition notebook : M unit :=
  cell_helpers ;;
  cell_list_foundation_models ;;
  cell_version ;;
  '(account_id, bedrock_client, bedrock_runtime) ← cell_clients ;
  cell_list_inference_profiles bedrock_client ;;
  cell_get_inference_profile bedrock_client ;;
  cell_converse bedrock_runtime ;;
  cell_converse_arn account_id bedrock_runtime ;;
  cell_invoke_model bedrock_runtime ;;
  cell_pip ;;
  cell_chat_converse bedrock_runtime ;;
  cell_chat_bedrock_converse bedrock_runtime ;;
  cell_chat_bedrock bedrock_runtime ;;
  cell_chat_bedrock_json bedrock_runtime ;;
  logs_client ← cell_logging account_id bedrock_client ;
  cell_metric_filter logs_client.

End CrossRegion.

(** ** RAG notebook *)

Module Rag.

(** *** The LangChain operations the notebook relies on *)

(** [[d.page_content for d in docs]] *)
Fixpoint page_contents (docs : list PyVal) : Outcome (list PyVal) :=
  match docs with
  | [] => Ok []
  | d :: rest =>
      match getattr d "page_content" with
      | Ok c =>
          match page_contents rest with
          | Ok cs => Ok (c :: cs)
          | Raise e => Raise e
          end
      | Raise e => Raise e
      end
  end.

(** A named part of a library object. *)
Definition part (o : Obj) (name : string) : Outcome Obj :=
  match o with
  | OLib _ _ parts =>
      match assoc_get name parts with
      | Some p => Ok p
      | None => Raise (PyExn "AttributeError" name)
      end
  | OClient _ => Raise (PyExn "AttributeError" name)
  end.

Definition param (o : Obj) (name : string) : Outcome PyVal :=
  match o with
  | OLib _ params _ =>
      match assoc_get name params with
      | Some p => Ok p
      | None => Raise (PyExn "AttributeError" name)
      end
  | OClient _ => Raise (PyExn "AttributeError" name)
  end.

(** Modelled from the spec: [PGVector.connection_string_from_db_params] of
    LangChain is not part of the notebook; it formats the database URL. *)
Definition connection_string_from_db_params
    (driver user password host port database : option string) : string :=
  "postgresql+" +:+ fmt_opt driver +:+ "://" +:+ fmt_opt user +:+ ":" +:+ fmt_opt password
    +:+ "@" +:+ fmt_opt host +:+ ":" +:+ fmt_opt port +:+ "/" +:+ fmt_opt database.

(** Modelled from the spec: [PGVector.from_documents] of LangChain is not
    part of the notebook; after the spec's pipeline (embed, then store) it
    has the chunks embedded by the embedding model and stores texts and
    vectors in the collection, and it returns the store. *)
Definition from_documents (embedding : Obj) (documents : PyVal)
    (collection_name connection_string : string) : M Obj :=
  docs ← lift (py_iter documents) ;
  texts ← lift (page_contents docs) ;
  embeddings ← call embedding "embed_documents" [("texts", VList texts)] ;
  let store := OLib "PGVector"
                    [("collection_name", VStr collection_name);
                     ("connection_string", VStr connection_string)]
                    [("embedding", embedding)] in
  call store "add_embeddings" [("texts", VList texts); ("embeddings", embeddings)] ;;
  mret store.

(** [db.as_retriever(search_type=..., search_kwargs=...)] *)
Definition as_retriever (db : Obj) (search_type : string) (search_kwargs : PyVal) : Obj :=
  OLib "VectorStoreRetriever"
       [("search_type", VStr search_type); ("search_kwargs", search_kwargs)]
       [("vectorstore", db)].

(** The number of chunks a search asks for: [k] of its keyword arguments,
    4 when they have none. *)
Definition search_limit (search_kwargs : list (string * PyVal)) : nat :=
  match assoc_get "k" search_kwargs with
  | Some (VInt k) => Z.to_nat k
  | _ => 4%nat
  end.

(** Modelled from the spec: the retriever of LangChain is not part of the
    notebook; for the search type [similarity] it runs the store's similarity
    search for the query with the keyword arguments it was configured with:
    the query is embedded by the store's embedding model, the database is
    asked for the nearest stored chunks, [k] of them at most, and the chunks
    that come back are given as a list. The limit is part of the query the
    database answers, so no more than [k] chunks come back: of what the
    world answers, the first [k] are kept. *)
Definition get_relevant_documents (retriever : Obj) (query : string) : M PyVal :=
  search_type ← lift (param retriever "search_type") ;
  search_kwargs ← lift (param retriever "search_kwargs") ;
  vectorstore ← lift (part retriever "vectorstore") ;
  match search_type with
  | VStr "similarity" =>
      embedding_function ← lift (part vectorstore "embedding") ;
      embedding ← call embedding_function "embed_query" [("text", VStr query)] ;
      let kw := match search_kwargs with VDict kw => kw | _ => [] end in
      rows ← call vectorstore "similarity_search_by_vector" (("embedding", embedding) :: kw) ;
      hits ← lift (py_iter rows) ;
      mret (VList (take (search_limit kw) hits))
  | _ => raise (PyExn "ValueError" "search_type not allowed")
  end.

(** The prompt template of the notebook, filled in. *)
Definition prompt_template (context question : string) : string :=
  newline +:+ newline
    +:+ "Human: Use the following pieces of context to provide a detailed respone to the question at the end"
    +:+ newline +:+ "<context>" +:+ newline +:+ context +:+ newline +:+ "</context"
    +:+ newline +:+ newline +:+ "Question: " +:+ question +:+ newline +:+ newline
    +:+ "Assistant:".

(** [RetrievalQA.from_chain_type(llm, chain_type, retriever,
    return_source_documents, chain_type_kwargs)] *)
Definition from_chain_type (llm : Obj) (chain_type : string) (retriever : Obj)
    (return_source_documents : bool) : Obj :=
  OLib "RetrievalQA"
       [("chain_type", VStr chain_type);
        ("return_source_documents", VBool return_source_documents)]
       [("llm", llm); ("retriever", retriever)].

(** Modelled from the spec: the [RetrievalQA] chain of LangChain is not part
    of the notebook; called on a query, a chain of type [stuff] has the
    retriever fetch the chunks (similarity search), puts their texts,
    separated by blank lines, and the question into the prompt (prompt
    assembly), and calls the model once with that prompt (model call); the
    answer comes back with the chunks when the chain was asked for the source
    documents. *)
Definition qa_call (qa : Obj) (inputs : PyVal) : M PyVal :=
  question ← lift (subscript inputs "query") ;
  retriever ← lift (part qa "retriever") ;
  llm ← lift (part qa "llm") ;
  return_source_documents ← lift (param qa "return_source_documents") ;
  source_documents ← get_relevant_documents retriever (py_str question) ;
  docs ← lift (py_iter source_documents) ;
  texts ← lift (page_contents docs) ;
  let context := String.concat (newline +:+ newline) (map py_str texts) in
  result ← call llm "generate" [("prompt", VStr (prompt_template context (py_str question)))] ;
  mret (match return_source_documents with
        | VBool true =>
            py_dict [("query", question); ("result", result);
                     ("source_documents", source_documents)]
        | _ => py_dict [("query", question); ("result", result)]
        end).

(** *** The cells *)

(** The three installation cells. *)
Definition cell_pip_boto3 : M unit :=
  shell ("pip install --no-build-isolation --force-reinstall "
           +:+ dquote +:+ "boto3>=1.28.57" +:+ dquote +:+ " "
           +:+ dquote +:+ "awscli>=1.29.57" +:+ dquote +:+ " "
           +:+ dquote +:+ "botocore>=1.31.57" +:+ dquote).

Definition cell_pip_langchain : M unit :=
  shell "pip install langchain>=0.1.11" ;;
  shell "pip install pypdf==4.1.0" ;;
  shell "pip install langchain-community faiss-cpu==1.8.0 tiktoken==0.6.0 sqlalchemy==2.0.28".

Definition cell_pip_driver : M unit :=
  shell "pip install psycopg psycopg2-binary pgvector".

(** The client of the fourth code cell, when [boto3.client] gives it. *)
Definition boto3_bedrock : Client := boto3_default_client "bedrock-runtime" None.

(** The fourth code cell, [boto3_bedrock = boto3.client(bedrock-runtime)]:
    no region is given, so it is for the machine to have one. *)
Definition cell_client : M Client := boto3_client "bedrock-runtime" None.

(** The model and the embedding model of the fifth code cell. *)
Definition llm : Obj :=
  OLib "Bedrock"
       [("model_id", VStr "anthropic.claude-v2");
        ("model_kwargs", py_dict [("max_tokens_to_sample", VInt 200)])]
       [("client", OClient boto3_bedrock)].

Definition bedrock_embeddings : Obj :=
  OLib "BedrockEmbeddings"
       [("model_id", VStr "amazon.titan-embed-text-v1")]
       [("client", OClient boto3_bedrock)].

(** The database settings and the two models, built on the client of the
    cell before. *)
Definition cell_models : M unit :=
  environ_set "PGVECTOR_DRIVER" "psycopg2" ;;
  environ_set "PGVECTOR_USER" "<<postgres user>>" ;;
  environ_set "PGVECTOR_PASSWORD" "<<password>>" ;;
  environ_set "PGVECTOR_HOST" "<<host endpoint>>" ;;
  environ_set "PGVECTOR_PORT" "5432" ;;
  environ_set "PGVECTOR_DATABASE" "<<database name>>" ;;
  model_id ← lift (param bedrock_embeddings "model_id") ;
  print [model_id] [].

(** Load and split. *)
Definition cell_load_split : M (string * PyVal) :=
  let loader := OLib "PyPDFDirectoryLoader" [("path", VStr "./data/")] [] in
  driver ← environ_get "PGVECTOR_DRIVER" ;
  user ← environ_get "PGVECTOR_USER" ;
  password ← environ_get "PGVECTOR_PASSWORD" ;
  host ← environ_get "PGVECTOR_HOST" ;
  port ← environ_get "PGVECTOR_PORT" ;
  database ← environ_get "PGVECTOR_DATABASE" ;
  let connection_string :=
    connection_string_from_db_params driver user password host port database in
  documents ← call loader "load" [] ;
  let text_splitter :=
    OLib "CharacterTextSplitter" [("chunk_size", VInt 1000); ("chunk_overlap", VInt 0)] [] in
  docs ← call text_splitter "split_documents" [("documents", documents)] ;
  n ← lift (py_len documents) ;
  print [VInt n] [] ;;
  n ← lift (py_len docs) ;
  print [VInt n] [] ;;
  mret (connection_string, docs).

Definition collection_name : string := "tbl_store_embedding".

(** Embed and store. *)
Definition cell_store (connection_string : string) (docs : PyVal) : M Obj :=
  print_str ("{" +:+ py_repr (VStr connection_string) +:+ "}") ;;
  from_documents bedrock_embeddings docs collection_name connection_string.

Definition query : string :=
  "Tell me the summary or key take away from AWS Well Architected  framework int bulletd points".

(** The retriever and the chain of the last cell. *)
Definition retriever (db : Obj) : Obj :=
  as_retriever db "similarity" (py_dict [("k", VInt 3)]).

Definition qa (db : Obj) : Obj := from_chain_type llm "stuff" (retriever db) true.

(** Ask. The cell gives back the answer dictionary too. *)
Definition cell_qa (db : Obj) : M PyVal :=
  answer ← qa_call (qa db) (py_dict [("query", VStr query)]) ;
  result ← lift (subscript answer "result") ;
  print [result] [] ;;
  sources ← lift (subscript answer "source_documents") ;
  display sources ;;
  mret answer.

(** The notebook, its code cells run top to bottom. *)
Definition notebook : M PyVal :=
  cell_pip_boto3 ;;
  cell_pip_langchain ;;
  cell_pip_driver ;;
  cell_client ;;
  cell_models ;;
  '(connection_string, docs) ← cell_load_split ;
  db ← cell_store connection_string docs ;
  cell_qa db.

End Rag.

(** ** Vocabulary of the statements *)

(** [wp m w st Φ]: running [m] in world [w] from state [st] ends in an
    outcome and a state that satisfy [Φ]. *)
Definition wp {A : Type} (m : M A) (w : World) (st : Proc)
    (Φ : Outcome A -> Proc -> Prop) : Prop :=
  Φ (m w st).1 (m w st).2.

(** A call, without its answer. *)
Record Request := {
  rq_recv : Obj;
  rq_method : string;
  rq_args : list (string * PyVal);
}.

Definition request_of (ev : Event) : Request :=
  {| rq_recv := ev_recv ev; rq_method := ev_method ev; rq_args := ev_args ev |}.

(** The events recorded from [st] on, up to [st'], and their calls. *)
Definition events_since (st st' : Proc) : list Event :=
  drop (length (trace st)) (trace st').

Definition calls_since (st st' : Proc) : list Request :=
  map request_of (events_since st st').

Definition failed (ev : Event) : bool :=
  match ev_result ev with
  | Raise _ => true
  | Ok _ => false
  end.

(** The boto3 client a call goes through: the receiver itself, or the client
    a library object was built with. *)
Definition client_of (recv : Obj) : option Client :=
  match recv with
  | OClient c => Some c
  | OLib _ _ parts =>
      match assoc_get "client" parts with
      | Some (OClient c) => Some c
      | _ => None
      end
  end.

(** A client retries failed requests when it was given a configuration that
    allows more than one attempt. *)
Definition retries_configured (c : Client) : bool :=
  match client_config c with
  | Some cfg => 1 <? cfg_max_attempts cfg
  | None => false
  end.

(** No call of the list goes through a client configured to retry. *)
Definition no_client_retries (calls : list Request) : Prop :=
  Forall (fun rq => forall c, client_of (rq_recv rq) = Some c -> retries_configured c = false)
         calls.

(** After a call has failed, the same operation is not called again. *)
Definition no_reattempt (evs : list Event) : Prop :=
  forall (i j : nat) (ei ej : Event),
    (i < j)%nat -> evs !! i = Some ei -> evs !! j = Some ej ->
    failed ei = true -> ev_method ej <> ev_method ei.

Fixpoint no_reattempt_b (evs : list Event) : bool :=
  match evs with
  | [] => true
  | ev :: rest =>
      (if failed ev
       then forallb (fun ej => negb (String.eqb (ev_method ej) (ev_method ev))) rest
       else true)
      && no_reattempt_b rest
  end.

(** The exception of the failed call [ev] left the run: [ev] is the last call
    made and the run ended with its exception. *)
Definition propagated {A : Type} (r : Outcome A) (evs : list Event) (ev : Event) : Prop :=
  exists e pre, ev_result ev = Raise e /\ evs = pre ++ [ev] /\ r = Raise e.

(** Every exception raised by a call left the run. *)
Definition all_propagate {A : Type} (r : Outcome A) (evs : list Event) : Prop :=
  forall ev, ev ∈ evs -> failed ev = true -> propagated r evs ev.

(** The two failures cell 31 of the cross-region notebook passes over. *)
Definition passed_over (ev : Event) : Prop :=
  (ev_method ev = "create_role" /\
   ev_result ev = Raise (ServiceException "iam" "EntityAlreadyExists")) \/
  (ev_method ev = "create_log_group" /\
   ev_result ev = Raise (ServiceException "logs" "ResourceAlreadyExists")).

(** [all_propagate], call by call along the trace: a failed call is the last
    one and the run ended with its exception, which is not one that is passed
    over, or, where [lenient] allows it, the failure is one of the two passed
    over, more calls follow it, and the rest of the trace is handled in
    turn. *)
Fixpoint handled {A : Type} (lenient : bool) (r : Outcome A) (evs : list Event) : Prop :=
  match evs with
  | [] => True
  | ev :: rest =>
      match ev_result ev with
      | Ok _ => handled lenient r rest
      | Raise e =>
          (rest = [] /\ r = Raise e /\ (lenient = true -> ~ passed_over ev)) \/
          (lenient = true /\ passed_over ev /\ rest <> [] /\ handled lenient r rest)
      end
  end.

(** [sub] occurs in [s]. *)
Fixpoint contains (sub s : string) : bool :=
  String.prefix sub s ||
  match s with
  | String _ s' => contains sub s'
  | EmptyString => false
  end.

(** An identifier of an inference profile, after the notebook's text: the
    model id behind a region-set prefix, or an ARN with the resource type
    [inference-profile]. *)
Definition is_inference_profile_identifier (id : string) : bool :=
  String.prefix "us." id || String.prefix "eu." id || contains ":inference-profile/" id.

(** The model identifiers the calls of [method] were given, in order. *)
Definition model_ids (method : string) (calls : list Request) : list string :=
  omap (fun rq => if String.eqb (rq_method rq) method
                  then match assoc_get "modelId" (rq_args rq) with
                       | Some (VStr id) => Some id
                       | _ => None
                       end
                  else None) calls.

(** The calls of [calls] whose operation is one of [methods], by name. *)
Definition operations (methods : list string) (calls : list Request) : list string :=
  filter (fun m => m ∈ methods) (map rq_method calls).

(** Each of the operations of [method] was given one plain model identifier
    and one inference-profile identifier, and nothing else. *)
Definition called_once_each (method : string) (calls : list Request) : Prop :=
  exists fm ip,
    model_ids method calls = [fm; ip] /\
    is_inference_profile_identifier fm = false /\
    is_inference_profile_identifier ip = true.

(** The result of [f] varies with the world it runs in. *)
Definition depends_on_world {A : Type} (f : World -> A) : Prop :=
  exists w1 w2, f w1 <> f w2.

(** [t] is the text of the document [d]. *)
Definition page_content_of (d t : PyVal) : Prop := getattr d "page_content" = Ok t.

(** The elements of [v], and [v] itself where it is a list. *)
Definition elements_of (v : PyVal) (l : list PyVal) : Prop :=
  py_iter v = Ok l /\ forall l', v = VList l' -> l = l'.

(** [sys.stdout] is an open stream. *)
Definition stdout_open (st : Proc) : Prop :=
  exists id s, sys_stdout st = VStream id /\ streams st !! id = Some s.

(** ** The calls of a complete run *)

Definition request (recv : Obj) (method : string) (args : list (string * PyVal)) : Request :=
  {| rq_recv := recv; rq_method := method; rq_args := args |}.

Definition shell_request (command : string) : Request :=
  request (OLib "shell" [] []) "system" [("command", VStr command)].

(** The client [get_bedrock_client] makes for [service] in the cross-region
    notebook: region and profile as the cells set them, and the retry
    configuration of the helper. *)
Definition profile_client (service : string) : Client :=
  {| client_service := service;
     client_region := Some "us-east-1";
     client_profile := Some "profile_acct_4";
     client_config := Some (retry_config (Some "us-east-1"));
     client_access_key_id := None;
     client_secret_access_key := None;
     client_session_token := None |}.

(** The calls of a complete run of the cross-region notebook, in order, for
    the account id that [get_caller_identity] gave. *)
Definition cross_region_calls (account_id : PyVal) : list Request :=
  let bedrock := OClient (profile_client "bedrock") in
  let runtime := profile_client "bedrock-runtime" in
  let iam := OClient (boto3_default_client "iam" (Some "us-east-1")) in
  let logs := OClient (boto3_default_client "logs" (Some "us-east-1")) in
  let invoke_args id :=
    [("body", VStr (json_text CrossRegion.invoke_body)); ("modelId", VStr id);
     ("accept", VStr "application/json"); ("contentType", VStr "application/json")] in
  [ request bedrock "list_foundation_models" [];
    request (OClient (profile_client "sts")) "get_caller_identity" [];
    request bedrock "list_inference_profiles" [];
    request bedrock "get_inference_profile"
            [("inferenceProfileIdentifier",
              VStr "us.anthropic.claude-3-5-sonnet-20240620-v1:0")];
    request (OClient runtime) "converse"
            (CrossRegion.converse_args "anthropic.claude-3-haiku-20240307-v1:0");
    request (OClient runtime) "converse"
            (CrossRegion.converse_args "us.anthropic.claude-3-haiku-20240307-v1:0");
    request (OClient runtime) "converse"
            (CrossRegion.converse_args (CrossRegion.inference_profile_arn account_id));
    request (OClient runtime) "invoke_model"
            (invoke_args "anthropic.claude-3-sonnet-20240229-v1:0");
    request (OClient runtime) "invoke_model"
            (invoke_args "us.anthropic.claude-3-sonnet-20240229-v1:0");
    shell_request "pip install --quiet langchain_aws langchain_community";
    request (OLib "ChatBedrockConverse"
                  [("model", VStr "us.anthropic.claude-3-sonnet-20240229-v1:0");
                   ("temperature", VInt 0);
                   ("max_tokens", VNone)]
                  [("client", OClient runtime)])
            "invoke" [("input", CrossRegion.messages)];
    request (OLib "ChatBedrock"
                  [("model_id", VStr "us.anthropic.claude-3-sonnet-20240229-v1:0");
                   ("model_kwargs",
                    py_dict [("temperature", VFloat "0.0"); ("top_p", VFloat ".5");
                             ("max_tokens_to_sample", VInt 200)]);
                   ("beta_use_converse_api", VBool true);
                   ("region_name", VStr "us-east-1")]
                  [("client", OClient runtime)])
            "invoke" [("input", CrossRegion.messages)];
    request (CrossRegion.chat_bedrock_haiku runtime) "invoke"
            [("input", CrossRegion.messages)];
    request (CrossRegion.chat_bedrock_haiku runtime) "invoke"
            [("input", VStr (json_text CrossRegion.messages_body))];
    request iam "create_role"
            [("RoleName", VStr CrossRegion.role_name);
             ("AssumeRolePolicyDocument",
              VStr (json_text (CrossRegion.assume_role_policy_doc account_id)))];
    request iam "put_role_policy"
            [("RoleName", VStr CrossRegion.role_name);
             ("PolicyName", VStr CrossRegion.role_name);
             ("PolicyDocument", VStr (json_text (CrossRegion.policy_doc account_id)))];
    request logs "create_log_group" [("logGroupName", VStr CrossRegion.log_group_name)];
    request logs "put_retention_policy"
            [("logGroupName", VStr CrossRegion.log_group_name);
             ("retentionInDays", VInt 365)];
    request bedrock "put_model_invocation_logging_configuration"
            [("loggingConfig", CrossRegion.loggingConfig account_id)];
    request logs "put_metric_filter"
            [("logGroupName", VStr CrossRegion.log_group_name);
             ("filterName", VStr "bedrock_cross_region_inference_rerouted");
             ("filterPattern",
              VStr ("{ $.inferenceRegion != " +:+ dquote +:+ "us-east-1" +:+ dquote +:+ " }"));
             ("metricTransformations",
              VList [py_dict [("metricNamespace", VStr "Custom");
                              ("metricName", VStr "bedrock_cross_region_inference_rerouted");
                              ("metricValue", VStr "1");
                              ("defaultValue", VInt 0);
                              ("unit", VStr "Count")]])] ].

(** The calls of a complete run of the RAG notebook, in order, for what the
    earlier calls gave: the loaded documents, the texts of the chunks, their
    vectors, the vector of the query, and the texts of the chunks found. *)
Definition rag_calls (documents : PyVal) (texts : list PyVal) (embeddings qvec : PyVal)
    (found : list PyVal) : list Request :=
  let store :=
    OLib "PGVector"
         [("collection_name", VStr "tbl_store_embedding");
          ("connection_string",
           VStr "postgresql+psycopg2://<<postgres user>>:<<password>>@<<host endpoint>>:5432/<<database name>>")]
         [("embedding", Rag.bedrock_embeddings)] in
  [ shell_request ("pip install --no-build-isolation --force-reinstall "
           +:+ dquote +:+ "boto3>=1.28.57" +:+ dquote +:+ " "
           +:+ dquote +:+ "awscli>=1.29.57" +:+ dquote +:+ " "
           +:+ dquote +:+ "botocore>=1.31.57" +:+ dquote);
    shell_request "pip install langchain>=0.1.11";
    shell_request "pip install pypdf==4.1.0";
    shell_request "pip install langchain-community faiss-cpu==1.8.0 tiktoken==0.6.0 sqlalchemy==2.0.28";
    shell_request "pip install psycopg psycopg2-binary pgvector";
    request (OLib "PyPDFDirectoryLoader" [("path", VStr "./data/")] []) "load" [];
    request (OLib "CharacterTextSplitter"
                  [("chunk_size", VInt 1000); ("chunk_overlap", VInt 0)] [])
            "split_documents" [("documents", documents)];
    request Rag.bedrock_embeddings "embed_documents" [("texts", VList texts)];
    request store "add_embeddings" [("texts", VList texts); ("embeddings", embeddings)];
    request Rag.bedrock_embeddings "embed_query" [("text", VStr Rag.query)];
    request store "similarity_search_by_vector" [("embedding", qvec); ("k", VInt 3)];
    request Rag.llm "generate"
            [("prompt",
              VStr (Rag.prompt_template
                      (String.concat (newline +:+ newline) (map py_str found))
                      Rag.query))] ].

(** The operations of the RAG pipeline, by name. *)
Definition rag_pipeline : list string :=
  ["load"; "split_documents"; "embed_documents"; "add_embeddings"; "embed_query";
   "similarity_search_by_vector"; "generate"].

(** ** Concrete worlds and processes *)

(** A machine on which boto3 finds what it is asked for. *)
Definition obliging : Machine :=
  {| session_error := fun _ _ => None; client_error := fun _ _ => None |}.

(** A machine with no region configured: a client is refused unless it is
    given its region. *)
Definition regionless : Machine :=
  {| session_error := fun _ _ => None;
     client_error := fun _ c =>
       match client_region c with
       | None => Some (PyExn "NoRegionError" "You must specify a region.")
       | Some _ => None
       end |}.

(** A process just started on an obliging machine: nothing in the
    environment, [sys.stdout] an open and empty stream. *)
Definition fresh_process : Proc :=
  {| environ := ∅; sys_stdout := VStream 0; streams := {[ 0%nat := EmptyString ]};
     warnings_filters := []; trace := []; clock_reads := 0; displayed := [];
     machine := obliging |}.

(** The same on a machine with no region configured. *)
Definition regionless_process : Proc :=
  {| environ := ∅; sys_stdout := VStream 0; streams := {[ 0%nat := EmptyString ]};
     warnings_filters := []; trace := []; clock_reads := 0; displayed := [];
     machine := regionless |}.

Definition document (text : string) : PyVal :=
  VObject "Document" [("page_content", VStr text); ("metadata", VDict [])].

Definition sample_chunks : list PyVal :=
  [document "Operational excellence"; document "Security"; document "Reliability";
   document "Performance efficiency"; document "Cost optimization"].

(** Every service answers, with values of the documented shapes; the vector
    store gives the first [k] chunks. *)
Definition friendly_respond (answer : string) (hist : list Event) (recv : Obj)
    (method : string) (args : list (string * PyVal)) : Outcome PyVal :=
  let text := VDict [("content", VList [VDict [("text", VStr answer)]])] in
  if String.eqb method "get_caller_identity" then
    Ok (VDict [("Account", VStr "123456789012")])
  else if String.eqb method "list_inference_profiles" then
    Ok (VDict [("inferenceProfileSummaries", VList [])])
  else if String.eqb method "converse" then
    Ok (VDict [("output", VDict [("message", text)])])
  else if String.eqb method "invoke_model" then
    Ok (VDict [("body", VObject "StreamingBody" [("document", text)])])
  else if String.eqb method "invoke" then
    Ok (VObject "AIMessage" [("content", VStr answer)])
  else if String.eqb method "load" then
    Ok (VList [document "The AWS Well-Architected Framework"])
  else if String.eqb method "split_documents" then
    Ok (VList sample_chunks)
  else if String.eqb method "similarity_search_by_vector" then
    Ok (VList (take (match assoc_get "k" args with
                     | Some (VInt k) => Z.to_nat k
                     | _ => 4%nat
                     end) sample_chunks))
  else if String.eqb method "generate" then
    Ok (VStr answer)
  else Ok (VDict []).

Definition friendly_world (answer : string) : World :=
  {| respond := friendly_respond answer;
     clock := fun n => Z.of_nat n * 1500000;
     boto3_version := "1.35.0";
     shell_status := fun _ _ => 0 |}.

Definition happy_world : World := friendly_world "Use Amazon S3.".

(** The same, the role and the log group being there already. *)
Definition second_run_world : World :=
  {| respond := fun hist recv method args =>
       if String.eqb method "create_role" then
         Raise (ServiceException "iam" "EntityAlreadyExists")
       else if String.eqb method "create_log_group" then
         Raise (ServiceException "logs" "ResourceAlreadyExists")
       else friendly_respond "Use Amazon S3." hist recv method args;
     clock := fun n => Z.of_nat n * 1500000;
     boto3_version := "1.35.0";
     shell_status := fun _ _ => 0 |}.

(** The region [get_bedrock_client] settles on. *)
Definition target_region_of (env : gmap string string) (region : option string)
  : option string :=
  match region with
  | Some r => Some r
  | None => match env !! "AWS_REGION" with
            | Some r => Some r
            | None => env !! "AWS_DEFAULT_REGION"
            end
  end.

(** The client [get_bedrock_client] gives back when no role is assumed. *)
Definition bedrock_client_for (env : gmap string string) (region : option string)
    (runtime : option bool) (service_name : option string) : Client :=
  {| client_service :=
       if negb (truthy_str service_name) then
         if truthy_bool runtime then "bedrock-runtime" else "bedrock"
       else fmt_opt service_name;
     client_region := target_region_of env region;
     client_profile :=
       if truthy_str (env !! "AWS_PROFILE") then env !! "AWS_PROFILE" else None;
     client_config := Some (retry_config (target_region_of env region));
     client_access_key_id := None;
     client_secret_access_key := None;
     client_session_token := None |}.

(** What a run of the cross-region notebook from [st] leaves behind. *)
Definition cross_region_post (st : Proc) (r : Outcome unit) (st' : Proc) : Prop :=
  exists account_id evs,
    trace st' = trace st ++ evs /\
    map request_of evs `prefix_of` cross_region_calls account_id /\
    (r = Ok tt -> map request_of evs = cross_region_calls account_id) /\
    handled true r evs /\
    no_reattempt_b evs = true /\
    environ st' = <["AWS_PROFILE" := "profile_acct_4"]> (environ st) /\
    sys_stdout st' = sys_stdout st /\
    warnings_filters st' = "ignore" :: remove_first "ignore" (warnings_filters st).

(** The environment the RAG notebook leaves. *)
Definition rag_environ (env : gmap string string) : gmap string string :=
  <["PGVECTOR_DATABASE" := "<<database name>>"]>
    (<["PGVECTOR_PORT" := "5432"]>
       (<["PGVECTOR_HOST" := "<<host endpoint>>"]>
          (<["PGVECTOR_PASSWORD" := "<<password>>"]>
             (<["PGVECTOR_USER" := "<<postgres user>>"]>
                (<["PGVECTOR_DRIVER" := "psycopg2"]> env))))).

(** What a run of the RAG notebook from [st] leaves behind. *)
Definition rag_post (st : Proc) (r : Outcome PyVal) (st' : Proc) : Prop :=
  exists documents texts embeddings qvec found evs,
    trace st' = trace st ++ evs /\
    map request_of evs `prefix_of` rag_calls documents texts embeddings qvec found /\
    (forall answer, r = Ok answer ->
       exists docs chunks stored rows hits result,
         map request_of evs = rag_calls documents texts embeddings qvec found /\
         map ev_result (drop 5 evs) =
           [Ok documents; Ok docs; Ok embeddings; Ok stored; Ok qvec; Ok rows; Ok result] /\
         elements_of docs chunks /\
         Forall2 page_content_of chunks texts /\
         elements_of rows hits /\
         Forall2 page_content_of (take 3 hits) found /\
         answer = py_dict [("query", VStr Rag.query); ("result", result);
                           ("source_documents", VList (take 3 hits))]) /\
    handled false r evs /\
    no_reattempt_b evs = true /\
    (environ st' = rag_environ (environ st) \/
     (environ st' = environ st /\ length evs = 5%nat /\ exists e, r = Raise e)) /\
    sys_stdout st' = sys_stdout st /\
    warnings_filters st' = warnings_filters st.

(** The retry configuration of the clients of the cross-region notebook:
    none for the IAM and CloudWatch Logs clients, the helper's for the
    others. *)
Definition client_retry_rule (rq : Request) : Prop :=
  forall c, client_of (rq_recv rq) = Some c ->
    if bool_decide (client_service c ∈ ["iam"; "logs"])
    then client_config c = None
    else client_config c =
           Some {| cfg_region_name := Some "us-east-1"; cfg_max_attempts := 10;
                   cfg_mode := "standard" |}.

(** The operations of the walk through the inference profiles. *)
Definition inference_walkthrough : list string :=
  ["list_inference_profiles"; "converse"; "invoke_model";
   "put_model_invocation_logging_configuration"].





(** The script [m] acts the same in every world. *)
Definition world_independent {A : Type} (m : M A) : Prop :=
  forall w1 w2 st, m w1 st = m w2 st.

(** ** Vocabulary of the further properties *)

(** What [print] writes for [args]: their texts, [sep] in between, then
    [end]. *)
Definition printed_text (args : list PyVal) (sep end_ : string) : string :=
  String.concat sep (map py_str args) +:+ end_.

(** What the last loop of [print_ww] writes for the lines of the captured
    text: each line wrapped, its pieces on lines of their own. *)
Fixpoint wrapped_text (wrap : string -> Z -> list string) (width : Z)
    (lines : list string) : string :=
  match lines with
  | [] => EmptyString
  | line :: rest =>
      String.concat newline (wrap line width) +:+ newline
        +:+ wrapped_text wrap width rest
  end.

(** The keyword arguments name only parameters of [print], and [sep] and
    [end] are given as strings or left out. *)
Definition print_accepts (kwargs : list (string * PyVal)) (sep end_ : string) : Prop :=
  filter (fun kv => negb (bool_decide (fst kv ∈ print_keywords))) kwargs = [] /\
  print_text_option "sep" " " (assoc_get "sep" kwargs) = Ok sep /\
  print_text_option "end" newline (assoc_get "end" kwargs) = Ok end_.

(** The keyword arguments leave [file] out, or give [None] for it. *)
Definition no_file (kwargs : list (string * PyVal)) : Prop :=
  assoc_get "file" kwargs = None \/ assoc_get "file" kwargs = Some VNone.

(** The STS client [get_bedrock_client] asks for the role: made by the
    session, so with its region and profile, and without the retry
    configuration. *)
Definition sts_client_for (env : gmap string string) (region : option string) : Client :=
  {| client_service := "sts";
     client_region := target_region_of env region;
     client_profile :=
       if truthy_str (env !! "AWS_PROFILE") then env !! "AWS_PROFILE" else None;
     client_config := None;
     client_access_key_id := None;
     client_secret_access_key := None;
     client_session_token := None |}.

(** The one call [get_bedrock_client] makes when it has a role to assume. *)
Definition assume_role_event (env : gmap string string) (region : option string)
    (role : string) (r : Outcome PyVal) : Event :=
  {| ev_recv := OClient (sts_client_for env region);
     ev_method := "assume_role";
     ev_args := [("RoleArn", VStr role); ("RoleSessionName", VStr "langchain-llm-1")];
     ev_result := r |}.

(** STS answers with temporary credentials; every other call as in the
    friendly world. *)
Definition sts_world : World :=
  {| respond := fun hist recv method args =>
       if String.eqb method "assume_role" then
         Ok (VDict [("Credentials",
                     VDict [("AccessKeyId", VStr "ASIAEXAMPLE");
                            ("SecretAccessKey", VStr "secret");
                            ("SessionToken", VStr "token")])])
       else friendly_respond "Use Amazon S3." hist recv method args;
     clock := fun n => Z.of_nat n * 1500000;
     boto3_version := "1.35.0";
     shell_status := fun _ _ => 0 |}.

(** The calls of cell 31 when nothing stops it, for the account id and the
    Bedrock client it was given. *)
Definition logging_calls (account_id : PyVal) (bedrock_client : Client) : list Request :=
  let iam := OClient (boto3_default_client "iam" (Some "us-east-1")) in
  let logs := OClient (boto3_default_client "logs" (Some "us-east-1")) in
  [ request iam "create_role"
            [("RoleName", VStr CrossRegion.role_name);
             ("AssumeRolePolicyDocument",
              VStr (json_text (CrossRegion.assume_role_policy_doc account_id)))];
    request iam "put_role_policy"
            [("RoleName", VStr CrossRegion.role_name);
             ("PolicyName", VStr CrossRegion.role_name);
             ("PolicyDocument", VStr (json_text (CrossRegion.policy_doc account_id)))];
    request logs "create_log_group" [("logGroupName", VStr CrossRegion.log_group_name)];
    request logs "put_retention_policy"
            [("logGroupName", VStr CrossRegion.log_group_name);
             ("retentionInDays", VInt 365)];
    request (OClient bedrock_client) "put_model_invocation_logging_configuration"
            [("loggingConfig", CrossRegion.loggingConfig account_id)] ].

(** How many of the calls returned. *)
Definition answered (evs : list Event) : nat :=
  length (List.filter (fun ev => negb (failed ev)) evs).

(** The operations that send a prompt to a model. *)
Definition invocations : list string := ["converse"; "invoke_model"; "invoke"].

(** Every service refuses. *)
Definition refusing_world : World :=
  {| respond := fun _ _ _ _ => Raise (ServiceException "sts" "AccessDenied");
     clock := fun n => Z.of_nat n * 1500000;
     boto3_version := "1.35.0";
     shell_status := fun _ _ => 0 |}.

(** * Proofs *)

(** ** The model on concrete inputs *)

Example splitlines_mixed :
  splitlines ("one" +:+ newline +:+ newline +:+ "two"
                +:+ String (Ascii.ascii_of_nat 13) newline +:+ "three" +:+ newline)
  = ["one"; EmptyString; "two"; "three"].
Proof. reflexivity. Qed.

Example py_dict_repeated_key :
  py_dict [("a", VInt 1); ("b", VInt 2); ("a", VInt 3)] = VDict [("a", VInt 3); ("b", VInt 2)].
Proof. reflexivity. Qed.

Example loggingConfig_keys :
  match CrossRegion.loggingConfig (VStr "123456789012") with
  | VDict d => map fst d
  | _ => []
  end = ["cloudWatchConfig"; "imageDataDeliveryEnabled"; "embeddingDataDeliveryEnabled"].
Proof. reflexivity. Qed.

Example inference_profile_arn_example :
  CrossRegion.inference_profile_arn (VStr "123456789012") =
  "arn:aws:bedrock:us-east-1:123456789012:inference-profile/us.anthropic.claude-3-sonnet-20240229-v1:0".
Proof. reflexivity. Qed.

(** [print_ww] with a wrapper that leaves every line whole: the text reaches
    the stream [sys.stdout] is bound to. *)
Example print_ww_prints :
  let run := print_ww (fun line _ => [line]) [VStr "hello"; VInt 7] 100 []
                      happy_world fresh_process in
  run.1 = Ok tt /\
  streams run.2 !! 0%nat = Some ("hello 7" +:+ newline) /\
  sys_stdout run.2 = VStream 0.
Proof. vm_compute. repeat split; reflexivity. Qed.

(** [print_ww] where the wrapped [print] raises: the exception leaves
    [print_ww], nothing is printed, and [sys.stdout] is bound as before. *)
Example print_ww_raises :
  let run := print_ww (fun line _ => [line]) [VStr "hello"] 100 [("colour", VStr "red")]
                      happy_world fresh_process in
  run.1 = Raise (PyExn "TypeError" "'colour' is an invalid keyword argument for print()") /\
  streams run.2 !! 0%nat = Some EmptyString /\
  sys_stdout run.2 = VStream 0.
Proof. vm_compute. repeat split; reflexivity. Qed.

(** [print_ww] with a width that is not positive: [textwrap.wrap] refuses it
    at the first line, after [sys.stdout] was restored; nothing is printed. *)
Example print_ww_width_zero :
  let run := print_ww (fun line _ => [line]) [VStr "hello"] 0 [] happy_world fresh_process in
  run.1 = Raise (PyExn "ValueError" "invalid width 0 (must be > 0)") /\
  streams run.2 !! 0%nat = Some EmptyString /\
  sys_stdout run.2 = VStream 0.
Proof. vm_compute. repeat split; reflexivity. Qed.

(** The same filter installed twice is there once. *)
Example filterwarnings_twice :
  warnings_filters ((filterwarnings "ignore" ;; filterwarnings "ignore")
                      happy_world fresh_process).2 = ["ignore"] /\
  warnings_filters ((filterwarnings "ignore" ;; filterwarnings "error" ;;
                     filterwarnings "ignore") happy_world fresh_process).2
    = ["ignore"; "error"].
Proof. vm_compute. split; reflexivity. Qed.

Example json_dumps_object :
  json_dumps (py_dict [("a", VInt 1); ("b", VList [VObject "datetime" []])]) =
    Raise (PyExn "TypeError" "Object of type datetime is not JSON serializable").
Proof. reflexivity. Qed.

Example py_iter_list l : py_iter (VList l) = Ok l.
Proof. reflexivity. Qed.

(** On a machine with no region configured the helper is refused its client
    when it is given no region and the environment has none, before any
    call. *)
Example get_bedrock_client_no_region :
  get_bedrock_client None None (Some true) None happy_world regionless_process
  = (Raise (PyExn "NoRegionError" "You must specify a region."),
     set_streams (insert 0%nat ("Create new client" +:+ newline
                                  +:+ "  Using region: None" +:+ newline))
                 regionless_process).
Proof. vm_compute. reflexivity. Qed.

Example get_bedrock_client_defaults :
  (get_bedrock_client None None (Some true) None happy_world
     (set_environ (insert "AWS_DEFAULT_REGION" "eu-west-1") fresh_process)).1
  = Ok {| client_service := "bedrock-runtime";
          client_region := Some "eu-west-1";
          client_profile := None;
          client_config := Some {| cfg_region_name := Some "eu-west-1";
                                   cfg_max_attempts := 10; cfg_mode := "standard" |};
          client_access_key_id := None;
          client_secret_access_key := None;
          client_session_token := None |}.
Proof. vm_compute. reflexivity. Qed.

Example cross_region_completes :
  (CrossRegion.notebook happy_world fresh_process).1 = Ok tt /\
  map rq_method (calls_since fresh_process (CrossRegion.notebook happy_world fresh_process).2)
  = ["list_foundation_models"; "get_caller_identity"; "list_inference_profiles";
     "get_inference_profile"; "converse"; "converse"; "converse"; "invoke_model";
     "invoke_model"; "system"; "invoke"; "invoke"; "invoke"; "invoke"; "create_role";
     "put_role_policy"; "create_log_group"; "put_retention_policy";
     "put_model_invocation_logging_configuration"; "put_metric_filter"].
Proof. vm_compute. split; reflexivity. Qed.

Example cross_region_second_run_completes :
  (CrossRegion.notebook second_run_world fresh_process).1 = Ok tt /\
  map failed (events_since fresh_process (CrossRegion.notebook second_run_world fresh_process).2)
  = [false; false; false; false; false; false; false; false; false; false; false; false;
     false; false; true; false; true; false; false; false].
Proof. vm_compute. split; reflexivity. Qed.

(** A failure that is not passed over stops the run at the failing call. *)
Example converse_throttled :
  let w := {| respond := fun hist recv method args =>
                if String.eqb method "converse" then
                  Raise (ServiceException "bedrock-runtime" "ThrottlingException")
                else respond happy_world hist recv method args;
              clock := clock happy_world;
              boto3_version := boto3_version happy_world;
              shell_status := shell_status happy_world |} in
  (CrossRegion.notebook w fresh_process).1 =
    Raise (ServiceException "bedrock-runtime" "ThrottlingException") /\
  map rq_method (calls_since fresh_process (CrossRegion.notebook w fresh_process).2)
  = ["list_foundation_models"; "get_caller_identity"; "list_inference_profiles";
     "get_inference_profile"; "converse"].
Proof. vm_compute. split; reflexivity. Qed.

Example rag_completes :
  exists result sources,
    (Rag.notebook happy_world fresh_process).1 =
      Ok (VDict [("query", VStr Rag.query); ("result", result);
                 ("source_documents", VList sources)]) /\
    length sources = 3%nat.
Proof. eexists _, _. vm_compute. split; reflexivity. Qed.

(** On a machine with no region configured the RAG notebook stops at its
    fourth code cell, [boto3.client] being given no region: the five
    installation commands have run, and the environment is untouched. *)
Example rag_stops_without_region :
  (Rag.notebook happy_world regionless_process).1 =
    Raise (PyExn "NoRegionError" "You must specify a region.") /\
  environ (Rag.notebook happy_world regionless_process).2 = environ regionless_process /\
  map rq_method (calls_since regionless_process
                   (Rag.notebook happy_world regionless_process).2)
  = ["system"; "system"; "system"; "system"; "system"].
Proof. vm_compute. repeat split; reflexivity. Qed.

(** ** Rules for running a script step by step *)

Lemma wp_ret {A} (a : A) w st Φ : Φ (Ok a) st -> wp (mret a) w st Φ.
Proof. done. Qed.

Lemma wp_bind {A B} (m : M A) (f : A -> M B) w st Φ :
  wp m w st (fun r st' => match r with
                          | Ok a => wp (f a) w st' Φ
                          | Raise e => Φ (Raise e) st'
                          end) ->
  wp (m ≫= f) w st Φ.
Proof.
  unfold wp, mbind, M_bind. destruct (m w st) as [[a|e] st']; done.
Qed.

Lemma wp_raise {A} e w st (Φ : Outcome A -> Proc -> Prop) : Φ (Raise e) st -> wp (raise e) w st Φ.
Proof. done. Qed.

Lemma wp_lift {A} (o : Outcome A) w st Φ : Φ o st -> wp (lift o) w st Φ.
Proof. done. Qed.

Lemma wp_call recv meth args w st Φ :
  (forall r, r = respond w (trace st) recv meth args ->
     Φ r (set_trace (fun t => t ++ [{| ev_recv := recv; ev_method := meth;
                                       ev_args := args; ev_result := r |}]) st)) ->
  wp (call recv meth args) w st Φ.
Proof. intros H. by apply H. Qed.

(** [print] touches the streams only. *)
Lemma file_write_streams file s w st :
  exists s', (file_write file s w st).2 = set_streams (fun _ => s') st.
Proof.
  unfold file_write. destruct file; try (exists (streams st); by destruct st).
  destruct (streams st !! id); [eexists; by destruct st | exists (streams st); by destruct st].
Qed.

Lemma print_items_streams file sep args : forall first w st,
  exists s', (print_items file sep first args w st).2 = set_streams (fun _ => s') st.
Proof.
  induction args as [|a rest IH]; intros first w st; simpl.
  - exists (streams st). by destruct st.
  - unfold mbind, M_bind.
    destruct first.
    + simpl. destruct (file_write_streams file (py_str a) w st) as [s1 E1].
      destruct (file_write file (py_str a) w st) as [[[]|e] st1]; simpl in E1; subst st1.
      * destruct (IH false w (set_streams (λ _, s1) st)) as [s2 E2].
        rewrite E2. by eexists.
      * by eexists.
    + destruct (file_write_streams file sep w st) as [s0 E0].
      destruct (file_write file sep w st) as [[[]|e] st0]; simpl in E0; subst st0.
      * destruct (file_write_streams file (py_str a) w (set_streams (λ _, s0) st)) as [s1 E1].
        destruct (file_write file (py_str a) w _) as [[[]|e] st1]; simpl in E1; subst st1.
        -- destruct (IH false w (set_streams (λ _ : gmap nat string, s1) (set_streams (λ _, s0) st))) as [s2 E2].
           rewrite E2. by eexists.
        -- by eexists.
      * by eexists.
Qed.

Lemma print_streams args kwargs w st :
  exists s', (print args kwargs w st).2 = set_streams (fun _ => s') st.
Proof.
  unfold print.
  destruct (filter _ kwargs) as [|[k v] ?].
  2:{ exists (streams st). by destruct st. }
  unfold mbind, M_bind, read_sys_stdout.
  set (file := match assoc_get "file" kwargs with | Some VNone | None => sys_stdout st | Some f => f end).
  assert (Hgen : exists s',
    (match print_text_option "sep" " " (assoc_get "sep" kwargs) with
     | Ok sep =>
       match print_text_option "end" newline (assoc_get "end" kwargs) with
       | Ok end_ =>
           match print_items file sep true args w st with
           | (Ok _, st') => file_write file end_ w st'
           | (Raise e, st') => (Raise e, st')
           end
       | Raise e => (Raise e, st)
       end
     | Raise e => (Raise e, st)
     end).2 = set_streams (fun _ => s') st).
  { destruct (print_text_option "sep" _ _) as [sep|e]; [|exists (streams st); by destruct st].
    destruct (print_text_option "end" _ _) as [end_|e]; [|exists (streams st); by destruct st].
    destruct (print_items_streams file sep args true w st) as [s1 E1].
    destruct (print_items file sep true args w st) as [[[]|e] st1]; simpl in E1; subst st1.
    - destruct (file_write_streams file end_ w (set_streams (λ _, s1) st)) as [s2 E2].
      rewrite E2. by eexists.
    - by eexists. }
  destruct file; try exact Hgen.
  exists (streams st). by destruct st.
Qed.

Lemma wp_print args kwargs w st Φ :
  (forall r s', Φ r (set_streams (fun _ => s') st)) -> wp (print args kwargs) w st Φ.
Proof.
  intros H. unfold wp. destruct (print_streams args kwargs w st) as [s' E].
  rewrite E. apply H.
Qed.

Lemma wp_print_str s w st Φ :
  (forall r s', Φ r (set_streams (fun _ => s') st)) -> wp (print_str s) w st Φ.
Proof. apply wp_print. Qed.

Lemma wp_environ_get k w st Φ : Φ (Ok (environ st !! k)) st -> wp (environ_get k) w st Φ.
Proof. done. Qed.

Lemma wp_environ_get_default k d w st Φ :
  Φ (Ok (match environ st !! k with Some v => Some v | None => d end)) st ->
  wp (environ_get_default k d) w st Φ.
Proof. done. Qed.

Lemma wp_environ_set k v w st Φ :
  Φ (Ok tt) (set_environ (insert k v) st) -> wp (environ_set k v) w st Φ.
Proof. done. Qed.

Lemma wp_filterwarnings a w st Φ :
  Φ (Ok tt) (set_warnings_filters (fun fs => a :: remove_first a fs) st) ->
  wp (filterwarnings a) w st Φ.
Proof. done. Qed.

Lemma wp_boto3_Session session w st Φ :
  (forall e, Φ (Raise e) st) -> Φ (Ok session) st -> wp (boto3_Session session) w st Φ.
Proof.
  intros HR HO. unfold wp, boto3_Session.
  destruct (session_error _ _ _); [apply HR | apply HO].
Qed.

Lemma wp_session_client session service cfg kwargs w st Φ :
  (forall e, Φ (Raise e) st) -> Φ (Ok (new_client session service cfg kwargs)) st ->
  wp (session_client session service cfg kwargs) w st Φ.
Proof.
  intros HR HO. unfold wp, session_client.
  destruct (client_error _ _ _); [apply HR | apply HO].
Qed.

Lemma wp_boto3_client service region w st Φ :
  (forall e, Φ (Raise e) st) -> Φ (Ok (boto3_default_client service region)) st ->
  wp (boto3_client service region) w st Φ.
Proof.
  intros HR HO. unfold wp, boto3_client.
  destruct (client_error _ _ _); [apply HR | apply HO].
Qed.

Lemma wp_time w st Φ :
  Φ (Ok (clock w (clock_reads st))) (set_clock_reads S st) -> wp time w st Φ.
Proof. done. Qed.

Lemma wp_display v w st Φ :
  Φ (Ok tt) (set_displayed (fun d => d ++ [v]) st) -> wp (display v) w st Φ.
Proof. done. Qed.

Lemma wp_read_boto3_version w st Φ :
  Φ (Ok (boto3_version w)) st -> wp read_boto3_version w st Φ.
Proof. done. Qed.

Lemma wp_shell command w st Φ :
  Φ (Ok tt)
    (set_trace (fun t => t ++ [{| ev_recv := OLib "shell" [] []; ev_method := "system";
                                  ev_args := [("command", VStr command)];
                                  ev_result := Ok (VInt (shell_status w (trace st) command)) |}])
               st) ->
  wp (shell command) w st Φ.
Proof. done. Qed.

Lemma wp_try_except {A} (body : M A) (matches : Exn -> bool) (handler : M A) w st Φ :
  wp body w st (fun r st' => match r with
                             | Ok a => Φ (Ok a) st'
                             | Raise e => if matches e then wp handler w st' Φ
                                          else Φ (Raise e) st'
                             end) ->
  wp (try_except body matches handler) w st Φ.
Proof.
  unfold wp, try_except. destruct (body w st) as [[a|e] st']; simpl; [done|].
  by destruct (matches e).
Qed.

Lemma wp_try_finally {A} (body : M A) (final : M unit) w st Φ :
  wp body w st (fun r st' =>
    wp final w st' (fun r' st'' => match r' with
                                   | Ok _ => Φ r st''
                                   | Raise e' => Φ (Raise e') st''
                                   end)) ->
  wp (try_finally body final) w st Φ.
Proof.
  unfold wp, try_finally. destruct (body w st) as [[a|e] st']; simpl;
    by destruct (final w st') as [[[]|e'] st''].
Qed.

Lemma wp_read_sys_stdout w st Φ : Φ (Ok (sys_stdout st)) st -> wp read_sys_stdout w st Φ.
Proof. done. Qed.

Lemma wp_write_sys_stdout v w st Φ :
  Φ (Ok tt) (set_sys_stdout v st) -> wp (write_sys_stdout v) w st Φ.
Proof. done. Qed.

Lemma wp_StringIO w st Φ :
  (forall id, Φ (Ok (VStream id)) (set_streams (insert id EmptyString) st)) ->
  wp StringIO w st Φ.
Proof. intros H. apply H. Qed.

Lemma wp_getvalue file w st Φ :
  (forall r, Φ r st) -> wp (getvalue file) w st Φ.
Proof.
  intros H. unfold wp, getvalue. destruct file; try apply H.
  destruct (streams st !! id); apply H.
Qed.

(** ** Facts about the Python operations *)

Lemma json_dumps_ok v s : json_dumps v = Ok s -> s = json_text v.
Proof. unfold json_dumps. destruct (json_serializable v); congruence. Qed.

Lemma is_service_exception_true service code e :
  is_service_exception service code e = true -> e = ServiceException service code.
Proof.
  destruct e as [s c|]; simpl; [|done].
  intros [H1 H2]%andb_prop.
  apply bool_decide_eq_true in H1, H2. by subst.
Qed.

(** One step of a script: the rule of its head, with a case split where the
    outcome is open. *)
Ltac wp_prim :=
  lazymatch goal with
  | |- wp (mbind _ _) _ _ _ => apply wp_bind
  | |- wp (mret _) _ _ _ => apply wp_ret
  | |- wp (lift _) _ _ _ => apply wp_lift
  | |- wp (raise _) _ _ _ => apply wp_raise
  | |- wp (call _ _ _) _ _ _ => apply wp_call; intros ? _
  | |- wp (print _ _) _ _ _ => apply wp_print; intros ? ?
  | |- wp (print_str _) _ _ _ => apply wp_print_str; intros ? ?
  | |- wp (environ_get _) _ _ _ => apply wp_environ_get
  | |- wp (environ_get_default _ _) _ _ _ => apply wp_environ_get_default
  | |- wp (environ_set _ _) _ _ _ => apply wp_environ_set
  | |- wp (filterwarnings _) _ _ _ => apply wp_filterwarnings
  | |- wp (boto3_Session _) _ _ _ => apply wp_boto3_Session; [intros ?|]
  | |- wp (session_client _ _ _ _) _ _ _ => apply wp_session_client; [intros ?|]
  | |- wp (boto3_client _ _) _ _ _ => apply wp_boto3_client; [intros ?|]
  | |- wp time _ _ _ => apply wp_time
  | |- wp (display _) _ _ _ => apply wp_display
  | |- wp read_boto3_version _ _ _ => apply wp_read_boto3_version
  | |- wp (shell _) _ _ _ => apply wp_shell
  | |- wp (try_except _ _ _) _ _ _ => apply wp_try_except
  | |- wp (try_finally _ _) _ _ _ => apply wp_try_finally
  | |- wp read_sys_stdout _ _ _ => apply wp_read_sys_stdout
  | |- wp (write_sys_stdout _) _ _ _ => apply wp_write_sys_stdout
  | |- wp StringIO _ _ _ => apply wp_StringIO; intros ?
  | |- wp (getvalue _) _ _ _ => apply wp_getvalue; intros ?
  | |- wp (for_each (_ :: _) _) _ _ _ => cbn [for_each]
  | |- wp (for_each [] _) _ _ _ => cbn [for_each]
  | |- wp (if ?b then _ else _) _ _ _ =>
      first [ let v := eval vm_compute in b in
              lazymatch v with
              | true => change b with true
              | false => change b with false
              end; cbv iota
            | destruct b eqn:? ]
  | |- wp (match ?x with _ => _ end) _ _ _ => destruct x eqn:?
  | |- match ?o with Ok _ => _ | Raise _ => _ end =>
      tryif is_var o then destruct o else destruct o eqn:?
  | |- if is_service_exception ?s ?c ?e then _ else _ =>
      let H := fresh "Hexn" in
      destruct (is_service_exception s c e) eqn:H;
      [apply is_service_exception_true in H; subst e|]
  | |- if ?b then _ else _ => destruct b eqn:?
  end; cbv beta.

(** ** The helper [get_bedrock_client] without a role to assume *)

Lemma get_bedrock_client_no_role region runtime service w st :
  exists s',
    (get_bedrock_client None region runtime service w st).2 = set_streams (fun _ => s') st /\
    match (get_bedrock_client None region runtime service w st).1 with
    | Ok c => c = bedrock_client_for (environ st) region runtime service
    | Raise _ => True
    end.
Proof.
  change (wp (get_bedrock_client None region runtime service) w st
            (fun r st' => exists s', st' = set_streams (fun _ => s') st /\
               match r with
               | Ok c => c = bedrock_client_for (environ st) region runtime service
               | Raise _ => True
               end)).
  unfold get_bedrock_client.
  repeat wp_prim; try (eexists; split; [reflexivity | exact I]).
  all: eexists; split; [reflexivity|].
  all: unfold bedrock_client_for, new_client, target_region_of; cbn [environ set_streams] in *.
  all: rewrite ?Heqb; cbn.
  all: try reflexivity.
  all: destruct (environ st !! "AWS_REGION"); try reflexivity.
  all: destruct (environ st !! "AWS_DEFAULT_REGION"); reflexivity.
Qed.

Lemma wp_get_bedrock_client region runtime service w st Φ :
  (forall e s', Φ (Raise e) (set_streams (fun _ => s') st)) ->
  (forall s', Φ (Ok (bedrock_client_for (environ st) region runtime service))
                (set_streams (fun _ => s') st)) ->
  wp (get_bedrock_client None region runtime service) w st Φ.
Proof.
  intros HR HO. unfold wp.
  destruct (get_bedrock_client_no_role region runtime service w st) as (s' & E & Hc).
  rewrite E. destruct (get_bedrock_client None region runtime service w st).1 as [c|e].
  - subst c. apply HO.
  - apply HR.
Qed.

Lemma bedrock_client_for_profile env region runtime service :
  bedrock_client_for (<["AWS_PROFILE" := "profile_acct_4"]> env) (Some region) runtime service =
  {| client_service :=
       if negb (truthy_str service) then
         if truthy_bool runtime then "bedrock-runtime" else "bedrock"
       else fmt_opt service;
     client_region := Some region;
     client_profile := Some "profile_acct_4";
     client_config := Some (retry_config (Some region));
     client_access_key_id := None;
     client_secret_access_key := None;
     client_session_token := None |}.
Proof. unfold bedrock_client_for. by rewrite lookup_insert_eq. Qed.

Lemma json_dumps_serializable v : json_serializable v = true -> json_dumps v = Ok (json_text v).
Proof. unfold json_dumps. by intros ->. Qed.

Lemma json_dumps_raise v e :
  json_dumps v = Raise e -> exists msg, e = PyExn "TypeError" msg.
Proof. unfold json_dumps. destruct (json_serializable v); [congruence|]. intros [= <-]. by eexists. Qed.

Lemma wp_time_any w st Φ :
  (forall t, Φ (Ok t) (set_clock_reads S st)) -> wp time w st Φ.
Proof. intros H. apply H. Qed.

(** ** Running the notebooks *)

(** The state of the goal, as a record of fields. *)
Ltac norm_state :=
  lazymatch goal with
  | |- wp ?m ?w ?s ?Φ =>
      let s1 := eval cbv beta delta
                  [set_environ set_sys_stdout set_streams set_warnings_filters set_trace
                   set_clock_reads set_displayed] in s in
      let s2 := eval cbn [environ sys_stdout streams warnings_filters trace clock_reads
                          displayed machine] in s1 in
      change (wp m w s2 Φ)
  | |- _ => idtac
  end.

(** The cell at the head of the goal, opened. *)
Ltac unfold_cell :=
  lazymatch goal with
  | |- wp ?m ?w ?s ?Φ =>
      let m' := eval unfold CrossRegion.notebook, CrossRegion.cell_helpers,
        CrossRegion.cell_list_foundation_models, CrossRegion.cell_version,
        CrossRegion.cell_clients, CrossRegion.cell_list_inference_profiles,
        CrossRegion.cell_get_inference_profile, CrossRegion.cell_converse,
        CrossRegion.cell_converse_arn, CrossRegion.cell_invoke_model, CrossRegion.cell_pip,
        CrossRegion.cell_chat_converse, CrossRegion.cell_chat_bedrock_converse,
        CrossRegion.cell_chat_bedrock, CrossRegion.cell_chat_bedrock_json,
        CrossRegion.cell_logging, CrossRegion.cell_metric_filter, CrossRegion.print_invoke
        in m in
      progress change (wp m' w s Φ)
  end.

Ltac wp_step :=
  lazymatch goal with
  | |- wp (get_bedrock_client None _ _ _) _ _ _ =>
      apply wp_get_bedrock_client; [intros ? ? | intros ?];
      cbn [environ]; rewrite ?insert_insert_eq, ?bedrock_client_for_profile
  | |- wp time _ _ _ => apply wp_time_any; intros ?
  | |- match json_dumps ?v with Ok _ => _ | Raise _ => _ end =>
      let H := fresh "Hjson" in
      let s := fresh "doc" in
      let e := fresh "e" in
      first [ rewrite (json_dumps_serializable v eq_refl); cbv beta iota
            | destruct (json_dumps v) as [s|e] eqn:H;
              [apply json_dumps_ok in H; subst s
              |apply json_dumps_raise in H as [? ->]; cbn [is_service_exception]] ]
  | |- _ => first [wp_prim | unfold_cell]
  end;
  norm_state.

(** The failed call at hand is none of the two that are passed over: it is
    another operation, or its exception is another one. *)
Ltac not_passed_over :=
  let Hm := fresh "Hm" in
  let Hr := fresh "Hr" in
  intros [[Hm Hr]|[Hm Hr]]; try discriminate Hm;
  cbn in Hr; injection Hr as ->; discriminate.

(** Each failure of the trace at hand was the last call or one passed over. *)
Ltac solve_handled :=
  cbn [handled ev_result];
  lazymatch goal with
  | |- True => exact I
  | |- (_ = [] /\ _ = Raise _ /\ _) \/ _ =>
      first [ left; split; [reflexivity|]; split; [reflexivity|]; intros _; not_passed_over
            | right; split; [reflexivity|]; split;
              [ first [ left; split; reflexivity | right; split; reflexivity ]
              | split; [discriminate | solve_handled] ] ]
  end.

Lemma snoc_trace (h evs : list Event) :
  fold_left (fun t e => t ++ [e]) evs h = h ++ evs.
Proof.
  revert h. induction evs as [|e evs IH]; intros h; simpl.
  - by rewrite app_nil_r.
  - rewrite IH, <- app_assoc. done.
Qed.

(** The events appended to [h] in the trace [t], oldest first. *)
Ltac events_after h t :=
  lazymatch t with
  | h => constr:(@nil Event)
  | ?t' ++ [?e] => let l := events_after h t' in constr:(l ++ [e])
  end.

Ltac give_events :=
  cbn [environ sys_stdout streams warnings_filters trace clock_reads displayed machine
       set_environ set_sys_stdout set_streams set_warnings_filters set_trace
       set_clock_reads set_displayed];
  lazymatch goal with
  | |- exists evs, ?t = ?h ++ evs /\ _ =>
      let l := events_after h t in
      let l' := eval cbn [app] in l in
      exists l'; split; [exact (snoc_trace h l')|]
  end.

(** The end of one path through the cross-region notebook. *)
Ltac leaf :=
  eexists; give_events;
  split; [eexists; reflexivity|];
  split; [first [discriminate | intros _; reflexivity]|];
  split; [solve_handled|];
  split; [reflexivity|];
  split; [first [reflexivity | apply insert_insert_eq]|];
  split; reflexivity.

(** Every run of the cross-region notebook, in any world and from any state,
    ends as [cross_region_post] says. *)
Lemma cross_region_run (w : World) (st : Proc) :
  wp CrossRegion.notebook w st (cross_region_post st).
Proof.
  repeat wp_step.
  all: unfold cross_region_post.
  all: leaf.
  Unshelve.
  all: exact VNone.
Qed.

Ltac unfold_rag :=
  lazymatch goal with
  | |- wp ?m ?w ?s ?Φ =>
      let m' := eval unfold Rag.notebook, Rag.cell_pip_boto3, Rag.cell_pip_langchain,
        Rag.cell_pip_driver, Rag.cell_client, Rag.cell_models, Rag.cell_load_split, Rag.cell_store,
        Rag.cell_qa, Rag.qa_call, Rag.from_documents, Rag.get_relevant_documents in m in
      progress change (wp m' w s Φ)
  end.

Ltac compute_outcome :=
  lazymatch goal with
  | |- match ?o with Ok _ => _ | Raise _ => _ end =>
      let v := eval cbv in o in
      lazymatch v with
      | Ok _ => change o with v
      | Raise _ => change o with v
      end; cbv beta iota
  | |- wp ?m ?w ?s ?Φ =>
      lazymatch m with
      | match _ with _ => _ end =>
          let m' := eval cbv beta iota in m in
          progress change (wp m' w s Φ)
      end
  end.

Ltac lookup_env :=
  lazymatch goal with
  | |- wp (environ_get _) _ _ _ =>
      apply wp_environ_get; cbn [environ];
      repeat first [rewrite lookup_insert_eq | rewrite lookup_insert_ne by done]
  end.

Ltac rag_step :=
  first [lookup_env | compute_outcome | wp_step | unfold_rag]; norm_state.

Lemma page_contents_Forall2 docs : forall texts,
  Rag.page_contents docs = Ok texts -> Forall2 page_content_of docs texts.
Proof.
  induction docs as [|d docs IH]; intros texts; simpl.
  - intros [= <-]. constructor.
  - destruct (getattr d "page_content") as [t|] eqn:Hd; [|done].
    destruct (Rag.page_contents docs) as [ts|]; [|done].
    intros [= <-]. constructor; [exact Hd | by apply IH].
Qed.

Lemma py_iter_elements v l : py_iter v = Ok l -> elements_of v l.
Proof. intros H. split; [exact H|]. intros l' ->. by injection H. Qed.

(** The end of one path through the RAG notebook. *)
Ltac rag_leaf :=
  do 5 eexists; give_events;
  split; [eexists; reflexivity|];
  split; [first [discriminate
                | intros ? [= <-]; do 6 eexists;
                  split; [reflexivity|];
                  split; [reflexivity|];
                  split; [apply py_iter_elements; eassumption|];
                  split; [apply page_contents_Forall2; eassumption|];
                  split; [apply py_iter_elements; eassumption|];
                  split; [apply page_contents_Forall2; eassumption|];
                  reflexivity]|];
  split; [solve_handled|];
  split; [reflexivity|];
  split; [first [ left; reflexivity
                | right; split; [reflexivity|]; split; [reflexivity|];
                  eexists; reflexivity ]|];
  split; reflexivity.

(** Every run of the RAG notebook, in any world and from any state, ends as
    [rag_post] says. *)
Lemma rag_run (w : World) (st : Proc) :
  wp Rag.notebook w st (rag_post st).
Proof.
  repeat rag_step.
  all: unfold rag_post, rag_environ.
  all: rag_leaf.
  Unshelve.
  all: first [exact VNone | exact []].
Qed.

(** ** Traces, prefixes and identifiers *)

Lemma events_since_app st st' evs :
  trace st' = trace st ++ evs -> events_since st st' = evs.
Proof. intros E. unfold events_since. rewrite E. apply drop_app_length. Qed.

Lemma calls_since_app st st' evs :
  trace st' = trace st ++ evs -> calls_since st st' = map request_of evs.
Proof.
  intros E. unfold calls_since. by rewrite (events_since_app st st' evs E) || (rewrite E, drop_app_length).
Qed.

Lemma no_reattempt_b_sound evs : no_reattempt_b evs = true -> no_reattempt evs.
Proof.
  induction evs as [|ev rest IH]; intros Hb i j ei ej Hij Hi Hj Hf.
  - by rewrite lookup_nil in Hi.
  - simpl in Hb. apply andb_prop in Hb as [Hhd Htl].
    destruct i as [|i].
    + simpl in Hi. injection Hi as ->.
      destruct j as [|j]; [lia|]. simpl in Hj.
      rewrite Hf in Hhd.
      rewrite forallb_forall in Hhd.
      specialize (Hhd ej). 
      assert (Hin : In ej rest).
      { apply list_elem_of_In. by eapply list_elem_of_lookup_2. }
      specialize (Hhd Hin). apply negb_true_iff in Hhd.
      by apply String.eqb_neq in Hhd.
    + destruct j as [|j]; [lia|]. simpl in Hi, Hj.
      apply (IH Htl i j ei ej); [lia|done..].
Qed.

Lemma propagated_cons {A} (r : Outcome A) ev0 evs ev :
  propagated r evs ev -> propagated r (ev0 :: evs) ev.
Proof.
  intros (e & pre & He & Hevs & Hr). exists e, (ev0 :: pre). by subst.
Qed.

Lemma handled_spec {A} lenient (r : Outcome A) evs :
  handled lenient r evs ->
  forall ev, ev ∈ evs -> failed ev = true ->
             propagated r evs ev \/ (lenient = true /\ passed_over ev).
Proof.
  induction evs as [|ev0 rest IH]; intros H ev Hin Hf.
  - by apply elem_of_nil in Hin.
  - apply elem_of_cons in Hin as [->|Hin].
    + simpl in H. unfold failed in Hf.
      destruct (ev_result ev0) as [|e] eqn:E; [done|].
      destruct H as [(-> & -> & _)|(Hl & Hp & _)].
      * left. exists e, []. done.
      * by right.
    + simpl in H.
      destruct (ev_result ev0) as [|e] eqn:E.
      * destruct (IH H ev Hin Hf) as [Hp|Hp]; [left; by apply propagated_cons | by right].
      * destruct H as [(-> & _)|(Hl & Hp & _ & H)].
        -- by apply elem_of_nil in Hin.
        -- destruct (IH H ev Hin Hf) as [Hp'|Hp']; [left; by apply propagated_cons | by right].
Qed.




Lemma map_drop {A B} (f : A -> B) (l : list A) n : map f (drop n l) = drop n (map f l).
Proof. revert n. induction l as [|a l IH]; intros [|n]; simpl; done. Qed.

(** Events are the same when their calls and their answers are. *)
Lemma same_parts (l1 l2 : list Event) :
  map request_of l1 = map request_of l2 -> map ev_result l1 = map ev_result l2 -> l1 = l2.
Proof.
  revert l2. induction l1 as [|[r1 m1 a1 o1] l1 IH]; intros [|[r2 m2 a2 o2] l2]; simpl; try done.
  intros [= -> -> -> Hq] [= -> Ho]. f_equal. by apply IH.
Qed.

Lemma prefix_of_filter {A} (P : A -> Prop) `{!forall x, Decision (P x)} (l1 l2 : list A) :
  l1 `prefix_of` l2 -> filter P l1 `prefix_of` filter P l2.
Proof. intros [k ->]. rewrite filter_app. by eexists. Qed.

Lemma prefix_of_map {A B} (f : A -> B) (l1 l2 : list A) :
  l1 `prefix_of` l2 -> map f l1 `prefix_of` map f l2.
Proof. intros [k ->]. rewrite map_app. by eexists. Qed.

Lemma Forall_prefix {A} (P : A -> Prop) (l1 l2 : list A) :
  l1 `prefix_of` l2 -> Forall P l2 -> Forall P l1.
Proof. intros [k ->] H. by apply Forall_app in H as [H _]. Qed.

Lemma prefix_append sub rest : String.prefix sub (sub +:+ rest) = true.
Proof.
  induction sub as [|c sub IH]; simpl; [by destruct rest|].
  destruct (Ascii.ascii_dec c c); [exact IH | congruence].
Qed.

Lemma contains_here sub rest : contains sub (sub +:+ rest) = true.
Proof.
  pose proof (prefix_append sub rest) as H.
  destruct (sub +:+ rest); unfold contains; fold contains; by rewrite H.
Qed.

Lemma contains_append sub p s : contains sub s = true -> contains sub (p +:+ s) = true.
Proof.
  intros H. induction p as [|c p IH]; simpl; [done|].
  rewrite IH. apply orb_true_r.
Qed.

Lemma arn_is_profile_identifier account_id :
  is_inference_profile_identifier (CrossRegion.inference_profile_arn account_id) = true.
Proof.
  unfold is_inference_profile_identifier, CrossRegion.inference_profile_arn.
  apply orb_true_iff. right.
  do 4 apply contains_append.
  apply contains_here.
Qed.

Lemma cross_region_calls_clients account_id :
  Forall client_retry_rule (cross_region_calls account_id).
Proof.
  unfold cross_region_calls.
  repeat (apply Forall_cons; split; [intros c; cbn; intros [= <-]; reflexivity || done|]).
  apply Forall_nil. done.
Qed.

Lemma rag_calls_clients documents texts embeddings qvec found :
  no_client_retries (rag_calls documents texts embeddings qvec found).
Proof.
  unfold rag_calls, no_client_retries.
  repeat (apply Forall_cons; split; [intros c; cbn; first [intros [= <-]; reflexivity | intros Hc; discriminate Hc]|]).
  apply Forall_nil. done.
Qed.

(** ** C1: retries *)

(** C1, as the spec states it, fails: in a complete run against the friendly
    world the first call already goes through a client that
    [get_bedrock_client] configured to retry (ten attempts, standard mode). *)
Lemma retries_are_configured :
  ~ (no_client_retries
       (calls_since fresh_process (CrossRegion.notebook happy_world fresh_process).2) /\
     no_reattempt
       (events_since fresh_process (CrossRegion.notebook happy_world fresh_process).2)).
Proof.
  intros [H _].
  unfold no_client_retries in H. rewrite Forall_forall in H.
  specialize (H (request (OClient (profile_client "bedrock")) "list_foundation_models" [])).
  assert (Hin : request (OClient (profile_client "bedrock")) "list_foundation_models" []
                ∈ calls_since fresh_process (CrossRegion.notebook happy_world fresh_process).2).
  { vm_compute. apply list_elem_of_here. }
  specialize (H Hin (profile_client "bedrock") eq_refl).
  vm_compute in H. discriminate H.
Qed.

(** C1, amended: in every run of the cross-region notebook the clients made
    by [get_bedrock_client] carry its retry configuration (ten attempts,
    mode standard) while the IAM and CloudWatch Logs clients carry none; the
    one client of the RAG notebook carries none; and in neither notebook is
    an operation called again once a call has failed. *)
Theorem retry_semantics (w : World) (st : Proc) :
  Forall client_retry_rule (calls_since st (CrossRegion.notebook w st).2) /\
  no_reattempt (events_since st (CrossRegion.notebook w st).2) /\
  no_client_retries (calls_since st (Rag.notebook w st).2) /\
  no_reattempt (events_since st (Rag.notebook w st).2).
Proof.
  destruct (cross_region_run w st)
    as (account_id & evs & Htr & Hpre & _ & _ & Hnr & _).
  destruct (rag_run w st)
    as (documents & texts & embeddings & qvec & found & evs' & Htr' & Hpre' & _ & _ & Hnr' & _).
  rewrite (calls_since_app _ _ _ Htr), (events_since_app _ _ _ Htr).
  rewrite (calls_since_app _ _ _ Htr'), (events_since_app _ _ _ Htr').
  split; [|split; [|split]].
  - eapply Forall_prefix; [exact Hpre | apply cross_region_calls_clients].
  - by apply no_reattempt_b_sound.
  - eapply Forall_prefix; [exact Hpre' | apply rag_calls_clients].
  - by apply no_reattempt_b_sound.
Qed.

(** ** C2: exceptions *)

Lemma all_propagate_ok {A} (a : A) evs :
  all_propagate (Ok a) evs -> forallb (fun ev => negb (failed ev)) evs = true.
Proof.
  intros H. apply forallb_forall. intros ev Hin.
  destruct (failed ev) eqn:Hf; [|done].
  apply list_elem_of_In in Hin.
  destruct (H ev Hin Hf) as (e & pre & _ & _ & Hr). discriminate Hr.
Qed.

(** C2, as the spec states it, fails: where the role and the log group exist
    already, [create_role] and [create_log_group] raise and the run still
    ends normally. *)
Lemma exceptions_are_passed_over :
  ~ all_propagate (CrossRegion.notebook second_run_world fresh_process).1
      (events_since fresh_process (CrossRegion.notebook second_run_world fresh_process).2).
Proof.
  intros H.
  assert (Hr : (CrossRegion.notebook second_run_world fresh_process).1 = Ok tt)
    by (vm_compute; reflexivity).
  rewrite Hr in H. apply all_propagate_ok in H.
  vm_compute in H. discriminate H.
Qed.

(** C2, amended: in every run of the cross-region notebook an exception
    raised by a call ends the run, the call being the last one made, unless
    it is the [EntityAlreadyExists] of [create_role] or the
    [ResourceAlreadyExists] of [create_log_group], which cell 31 passes
    over; in every run of the RAG notebook every exception raised by a call
    ends the run. *)
Theorem exception_propagation (w : World) (st : Proc) :
  (forall ev, ev ∈ events_since st (CrossRegion.notebook w st).2 ->
     failed ev = true ->
     propagated (CrossRegion.notebook w st).1
                (events_since st (CrossRegion.notebook w st).2) ev \/
     passed_over ev) /\
  all_propagate (Rag.notebook w st).1 (events_since st (Rag.notebook w st).2).
Proof.
  destruct (cross_region_run w st)
    as (account_id & evs & Htr & _ & _ & Hh & _).
  destruct (rag_run w st)
    as (documents & texts & embeddings & qvec & found & evs' & Htr' & _ & _ & Hh' & _).
  rewrite (events_since_app _ _ _ Htr), (events_since_app _ _ _ Htr').
  split.
  - intros ev Hin Hf.
    destruct (handled_spec _ _ _ Hh ev Hin Hf) as [Hp|[_ Hp]]; [by left|by right].
  - intros ev Hin Hf.
    destruct (handled_spec _ _ _ Hh' ev Hin Hf) as [Hp|[Hl _]]; [done|discriminate Hl].
Qed.

(** ** C4: the walk through the inference profiles *)

(** C4, as the spec states it, fails: a complete run calls the Converse API
    with three model identifiers, two of them identifiers of an inference
    profile. *)
Lemma converse_called_three_times :
  ~ called_once_each "converse"
      (calls_since fresh_process (CrossRegion.notebook happy_world fresh_process).2).
Proof.
  intros (fm & ip & H & _). vm_compute in H. discriminate H.
Qed.

(** C4, amended: every run of the cross-region notebook lists the inference
    profiles, then calls the Converse API with a foundation-model id, with an
    inference-profile id and with the ARN of an inference profile, then the
    InvokeModel API with a foundation-model id and with an inference-profile
    id, then configures invocation logging (a run that stops early makes a
    prefix of these calls). *)
Theorem cross_region_walkthrough (w : World) (st : Proc) :
  let calls := calls_since st (CrossRegion.notebook w st).2 in
  operations inference_walkthrough calls `prefix_of`
    ["list_inference_profiles"; "converse"; "converse"; "converse";
     "invoke_model"; "invoke_model"; "put_model_invocation_logging_configuration"] /\
  ((CrossRegion.notebook w st).1 = Ok tt ->
     operations inference_walkthrough calls =
       ["list_inference_profiles"; "converse"; "converse"; "converse";
        "invoke_model"; "invoke_model"; "put_model_invocation_logging_configuration"] /\
     exists account_id,
       model_ids "converse" calls =
         ["anthropic.claude-3-haiku-20240307-v1:0";
          "us.anthropic.claude-3-haiku-20240307-v1:0";
          CrossRegion.inference_profile_arn account_id] /\
       model_ids "invoke_model" calls =
         ["anthropic.claude-3-sonnet-20240229-v1:0";
          "us.anthropic.claude-3-sonnet-20240229-v1:0"] /\
       map is_inference_profile_identifier (model_ids "converse" calls) = [false; true; true] /\
       map is_inference_profile_identifier (model_ids "invoke_model" calls) = [false; true]).
Proof.
  intros calls. subst calls.
  destruct (cross_region_run w st)
    as (account_id & evs & Htr & Hpre & Hfull & _).
  rewrite (calls_since_app _ _ _ Htr).
  split.
  - change ["list_inference_profiles"; "converse"; "converse"; "converse";
            "invoke_model"; "invoke_model"; "put_model_invocation_logging_configuration"]
      with (operations inference_walkthrough (cross_region_calls account_id)).
    unfold operations. apply prefix_of_filter. by apply prefix_of_map.
  - intros Hr. rewrite (Hfull Hr). split; [reflexivity|].
    exists account_id. split; [reflexivity|]. split; [reflexivity|].
    split; [|reflexivity].
    change (model_ids "converse" (cross_region_calls account_id))
      with ["anthropic.claude-3-haiku-20240307-v1:0";
            "us.anthropic.claude-3-haiku-20240307-v1:0";
            CrossRegion.inference_profile_arn account_id].
    cbn [map]. rewrite arn_is_profile_identifier. reflexivity.
Qed.

(** A run that completes: the friendly world, a process just started. *)
Lemma cross_region_walkthrough_witness :
  operations inference_walkthrough
    (calls_since fresh_process (CrossRegion.notebook happy_world fresh_process).2) =
  ["list_inference_profiles"; "converse"; "converse"; "converse";
   "invoke_model"; "invoke_model"; "put_model_invocation_logging_configuration"].
Proof.
  apply (cross_region_walkthrough happy_world fresh_process).
  vm_compute. reflexivity.
Defined.

(** ** C10: [print_ww] and [sys.stdout] *)

Lemma set_streams_id st : set_streams (fun _ => streams st) st = st.
Proof. by destruct st. Qed.

Lemma wp_streams_only {A} (m : M A) w st Φ :
  (exists s', (m w st).2 = set_streams (fun _ => s') st) ->
  (forall r s', Φ r (set_streams (fun _ => s') st)) ->
  wp m w st Φ.
Proof. intros [s' E] H. unfold wp. rewrite E. apply H. Qed.

(** A loop whose body touches the streams only touches the streams only. *)
Lemma wp_for_each_streams {A} (xs : list A) (body : A -> M unit) w st Φ :
  (forall x st0, exists s', (body x w st0).2 = set_streams (fun _ => s') st0) ->
  (forall r s', Φ r (set_streams (fun _ => s') st)) ->
  wp (for_each xs body) w st Φ.
Proof.
  intros Hbody. revert st Φ. induction xs as [|x xs IH]; intros st Φ H.
  - cbn [for_each]. apply wp_ret. rewrite <- (set_streams_id st). apply H.
  - cbn [for_each]. apply wp_bind, wp_streams_only; [apply Hbody|].
    intros [[]|e] s'.
    + apply IH. intros r s''. apply H.
    + apply H.
Qed.

Section PrintWW.
Variable textwrap_wrap : string -> Z -> list string.

(** One round of the last loop of [print_ww]. *)
Lemma print_wrapped_streams width line w st :
  exists s',
    ((pieces ← lift (wrap_text textwrap_wrap line width) ;
      print_str (String.concat newline pieces)) w st).2 = set_streams (fun _ => s') st.
Proof.
  change (wp (pieces ← lift (wrap_text textwrap_wrap line width) ;
              print_str (String.concat newline pieces)) w st
             (fun _ st' => exists s', st' = set_streams (fun _ => s') st)).
  apply wp_bind, wp_lift.
  destruct (wrap_text textwrap_wrap line width) as [pieces|e].
  - apply wp_print_str. intros r s'. by eexists.
  - exists (streams st). by rewrite set_streams_id.
Qed.

Lemma print_ww_streams args width kwargs w st :
  exists s', (print_ww textwrap_wrap args width kwargs w st).2 = set_streams (fun _ => s') st.
Proof.
  change (wp (print_ww textwrap_wrap args width kwargs) w st
             (fun _ st' => exists s', st' = set_streams (fun _ => s') st)).
  unfold print_ww.
  apply wp_bind, wp_StringIO. intros id.
  apply wp_bind, wp_read_sys_stdout.
  apply wp_bind, wp_try_finally.
  apply wp_bind, wp_write_sys_stdout.
  apply wp_bind, wp_print. intros [[]|e] s1.
  - apply wp_getvalue. intros [output|e].
    + apply wp_write_sys_stdout.
      apply wp_for_each_streams; [intros; apply print_wrapped_streams|].
      intros r s2. by eexists.
    + apply wp_write_sys_stdout. by eexists.
  - apply wp_write_sys_stdout. by eexists.
Qed.

(** C10: whatever [print_ww] is given and however it ends, with a result or
    with the exception of the wrapped [print], [sys.stdout] is afterwards
    the object it was on entry. *)
Theorem print_ww_restores_stdout (args : list PyVal) (width : Z)
    (kwargs : list (string * PyVal)) (w : World) (st : Proc) :
  sys_stdout (print_ww textwrap_wrap args width kwargs w st).2 = sys_stdout st.
Proof.
  destruct (print_ww_streams args width kwargs w st) as [s' ->]. reflexivity.
Qed.

End PrintWW.

(** ** C5: process-global state *)



(** ** C6: the persistent entities *)








(** ** C3: the retrieval pipeline *)

(** C3: every run of the RAG notebook goes through load, split, embed, store,
    embed the query, similarity search and model call in this order (a run
    that stops early makes a prefix of it); in a complete run these seven
    calls are: the loader's [load]; the splitter's [split_documents] on the
    loaded documents; [embed_documents] on the texts of the chunks the
    splitter gave; [add_embeddings] of these texts and their vectors to the
    store; [embed_query] on the query; the store's search for the vector of
    the query, limited to three chunks; and one [generate] of the model, on
    the prompt of the notebook's template holding the texts of the chunks
    that came back, a blank line between them, and the query; the answer of
    the run carries the result of the model and these chunks. *)
Theorem rag_pipeline_order (w : World) (st : Proc) :
  let evs := events_since st (Rag.notebook w st).2 in
  let store :=
    OLib "PGVector"
         [("collection_name", VStr "tbl_store_embedding");
          ("connection_string",
           VStr "postgresql+psycopg2://<<postgres user>>:<<password>>@<<host endpoint>>:5432/<<database name>>")]
         [("embedding", Rag.bedrock_embeddings)] in
  let prompt context :=
    newline +:+ newline
      +:+ "Human: Use the following pieces of context to provide a detailed respone to the question at the end"
      +:+ newline +:+ "<context>" +:+ newline +:+ context +:+ newline +:+ "</context"
      +:+ newline +:+ newline
      +:+ "Question: Tell me the summary or key take away from AWS Well Architected  framework int bulletd points"
      +:+ newline +:+ newline +:+ "Assistant:" in
  operations rag_pipeline (map request_of evs) `prefix_of` rag_pipeline /\
  (forall answer, (Rag.notebook w st).1 = Ok answer ->
     exists documents docs chunks texts embeddings stored qvec rows hits found result,
       drop 5 evs =
         [ {| ev_recv := OLib "PyPDFDirectoryLoader" [("path", VStr "./data/")] [];
              ev_method := "load"; ev_args := []; ev_result := Ok documents |};
           {| ev_recv := OLib "CharacterTextSplitter"
                              [("chunk_size", VInt 1000); ("chunk_overlap", VInt 0)] [];
              ev_method := "split_documents"; ev_args := [("documents", documents)];
              ev_result := Ok docs |};
           {| ev_recv := Rag.bedrock_embeddings; ev_method := "embed_documents";
              ev_args := [("texts", VList texts)]; ev_result := Ok embeddings |};
           {| ev_recv := store; ev_method := "add_embeddings";
              ev_args := [("texts", VList texts); ("embeddings", embeddings)];
              ev_result := Ok stored |};
           {| ev_recv := Rag.bedrock_embeddings; ev_method := "embed_query";
              ev_args :=
                [("text",
                  VStr "Tell me the summary or key take away from AWS Well Architected  framework int bulletd points")];
              ev_result := Ok qvec |};
           {| ev_recv := store; ev_method := "similarity_search_by_vector";
              ev_args := [("embedding", qvec); ("k", VInt 3)]; ev_result := Ok rows |};
           {| ev_recv := Rag.llm; ev_method := "generate";
              ev_args :=
                [("prompt",
                  VStr (prompt (String.concat (newline +:+ newline) (map py_str found))))];
              ev_result := Ok result |} ] /\
       elements_of docs chunks /\
       Forall2 page_content_of chunks texts /\
       elements_of rows hits /\
       Forall2 page_content_of (take 3 hits) found /\
       answer =
         VDict [("query",
                 VStr "Tell me the summary or key take away from AWS Well Architected  framework int bulletd points");
                ("result", result);
                ("source_documents", VList (take 3 hits))]).
Proof.
  intros evs0 store prompt. subst evs0.
  destruct (rag_run w st)
    as (documents & texts & embeddings & qvec & found & evs & Htr & Hpre & Hfull & _).
  rewrite (events_since_app _ _ _ Htr).
  split.
  - change rag_pipeline
      with (operations rag_pipeline (rag_calls documents texts embeddings qvec found)) at 2.
    unfold operations. apply prefix_of_filter. by apply prefix_of_map.
  - intros answer Hr.
    destruct (Hfull answer Hr)
      as (docs & chunks & stored & rows & hits & result & Hc & Hres & Hd & Ht & Hrows & Hf & Ha).
    exists documents, docs, chunks, texts, embeddings, stored, qvec, rows, hits, found, result.
    split; [|by rewrite Ha].
    apply same_parts.
    + rewrite map_drop, Hc. reflexivity.
    + rewrite Hres. reflexivity.
Qed.

(** A run that completes: the friendly world, a process just started; its
    answer carries the result of the model and the chunks of the search. *)
Lemma rag_pipeline_order_witness :
  exists answer result hits,
    (Rag.notebook happy_world fresh_process).1 = Ok answer /\
    answer =
      VDict [("query",
              VStr "Tell me the summary or key take away from AWS Well Architected  framework int bulletd points");
             ("result", result);
             ("source_documents", VList (take 3 hits))].
Proof.
  assert (H : exists answer, (Rag.notebook happy_world fresh_process).1 = Ok answer)
    by (eexists; vm_compute; reflexivity).
  destruct H as [answer H].
  destruct (rag_pipeline_order happy_world fresh_process) as [_ Hfull].
  destruct (Hfull answer H)
    as (documents & docs & chunks & texts & embeddings & stored & qvec & rows & hits & found
        & result & _ & _ & _ & _ & _ & Ha).
  exists answer, result, hits. split; [exact H | exact Ha].
Defined.

(** ** C8: the client [get_bedrock_client] makes *)

Lemma file_write_open id s0 text w st :
  streams st !! id = Some s0 ->
  file_write (VStream id) text w st = (Ok tt, set_streams (insert id (s0 +:+ text)) st).
Proof. intros H. unfold file_write. by rewrite H. Qed.

Lemma print_str_open text w st :
  stdout_open st ->
  exists s', print_str text w st = (Ok tt, set_streams (fun _ => s') st) /\
             stdout_open (set_streams (fun _ => s') st).
Proof.
  intros (id & s0 & Hout & Hs).
  unfold print_str, print.
  change (filter _ []) with (@nil (string * PyVal)). cbv beta iota.
  unfold mbind at 1. unfold M_bind at 1. unfold read_sys_stdout.
  cbn [assoc_get]. rewrite Hout.
  cbn [print_text_option print_items].
  unfold mbind, M_bind, lift, mret, M_ret.
  rewrite (file_write_open id s0 (py_str (VStr text)) w st Hs).
  rewrite (file_write_open id (s0 +:+ py_str (VStr text)) newline w).
  2:{ cbn [streams set_streams]. apply lookup_insert_eq. }
  eexists. split; [reflexivity|].
  exists id. eexists. split; [exact Hout|]. cbn [set_streams streams].
  apply lookup_insert_eq.
Qed.

Lemma wp_print_str_open text w st Φ :
  stdout_open st ->
  (forall s', stdout_open (set_streams (fun _ => s') st) ->
              Φ (Ok tt) (set_streams (fun _ => s') st)) ->
  wp (print_str text) w st Φ.
Proof.
  intros Ho H. destruct (print_str_open text w st Ho) as (s' & E & Ho').
  unfold wp. rewrite E. by apply H.
Qed.



(** ** C7: what depends on the world *)

Lemma wi_ret {A} (a : A) : world_independent (mret a).
Proof. done. Qed.

Lemma wi_bind {A B} (m : M A) (f : A -> M B) :
  world_independent m -> (forall a, world_independent (f a)) ->
  world_independent (m ≫= f).
Proof.
  intros Hm Hf w1 w2 st. unfold mbind, M_bind. rewrite (Hm w1 w2 st).
  destruct (m w2 st) as [[a|e] st']; [apply Hf | done].
Qed.

Lemma wi_print_items file sep args : forall first,
  world_independent (print_items file sep first args).
Proof.
  induction args as [|a rest IH]; intros first; cbn [print_items]; [done|].
  apply wi_bind; [by destruct first|]. intros _.
  apply wi_bind; [done|]. intros _. apply IH.
Qed.

Lemma wi_print args kwargs : world_independent (print args kwargs).
Proof.
  unfold print. destruct (filter _ kwargs) as [|[k v] ?]; [|done].
  apply wi_bind; [done|]. intros out.
  destruct (match assoc_get "file" kwargs with
            | Some VNone | None => out
            | Some f => f
            end); try done.
  all: apply wi_bind; [done|]; intros sep.
  all: apply wi_bind; [done|]; intros end_.
  all: apply wi_bind; [apply wi_print_items | done].
Qed.

Lemma wi_for_each {A} (xs : list A) (body : A -> M unit) :
  (forall x, world_independent (body x)) -> world_independent (for_each xs body).
Proof.
  intros H. induction xs as [|x xs IH]; cbn [for_each]; [done|].
  apply wi_bind; [apply H | intros _; apply IH].
Qed.

Lemma wi_try_finally {A} (body : M A) (final : M unit) :
  world_independent body -> world_independent final ->
  world_independent (try_finally body final).
Proof.
  intros Hb Hf w1 w2 st. unfold try_finally. rewrite (Hb w1 w2 st).
  destruct (body w2 st) as [[a|e] st']; by rewrite (Hf w1 w2 st').
Qed.

Lemma wi_get_bedrock_client region runtime service :
  world_independent (get_bedrock_client None region runtime service).
Proof.
  unfold get_bedrock_client. cbn [truthy_str].
  apply wi_bind.
  { destruct region; [done|]. apply wi_bind; [done|]. by intros ?. }
  intros target_region. apply wi_bind; [apply wi_print|]. intros _.
  apply wi_bind; [done|]. intros profile.
  apply wi_bind.
  { destruct (truthy_str profile); [|done]. apply wi_bind; [apply wi_print | done]. }
  intros session_kwargs. apply wi_bind; [done|]. intros session.
  apply wi_bind; [done|]. intros kw.
  apply wi_bind; [done|]. intros bedrock_client.
  apply wi_bind; [apply wi_print|]. intros _.
  apply wi_bind; [apply wi_print | done].
Qed.

Lemma wi_print_ww wrap args width kwargs :
  world_independent (print_ww wrap args width kwargs).
Proof.
  unfold print_ww.
  apply wi_bind; [done|]. intros buffer.
  apply wi_bind; [done|]. intros _stdout.
  apply wi_bind.
  { apply wi_try_finally; [|done].
    apply wi_bind; [done|]. intros _.
    apply wi_bind; [apply wi_print | done]. }
  intros output. apply wi_for_each. intros line.
  apply wi_bind; [done|]. intros pieces. apply wi_print.
Qed.

(** C7, as the spec states it, fails: what [get_bedrock_client] gives back
    for a region and a flag does not vary with the world. *)
Lemma client_selection_ignores_world :
  ~ depends_on_world
      (fun w => (get_bedrock_client None (Some "us-east-1") (Some false) None
                   w fresh_process).1).
Proof.
  intros (w1 & w2 & H). apply H.
  by rewrite (wi_get_bedrock_client (Some "us-east-1") (Some false) None w1 w2 fresh_process).
Qed.

(** C7, amended: what the notebooks print and give back depends on the
    answers of the services, but the two helpers are deterministic:
    [get_bedrock_client] without a role to assume and [print_ww] act the
    same in every world. *)
Theorem helpers_are_deterministic (textwrap_wrap : string -> Z -> list string) :
  (forall region runtime service,
     world_independent (get_bedrock_client None region runtime service)) /\
  (forall args width kwargs,
     world_independent (print_ww textwrap_wrap args width kwargs)) /\
  depends_on_world
    (fun w => streams (CrossRegion.notebook w fresh_process).2 !! 0%nat) /\
  depends_on_world (fun w => (Rag.notebook w fresh_process).1).
Proof.
  split; [apply wi_get_bedrock_client|].
  split; [apply wi_print_ww|].
  split.
  - exists happy_world, (friendly_world "Use Amazon EFS.").
    intros H.
    apply (f_equal (fun o => match o with Some s => String.length s | None => 0%nat end)) in H.
    vm_compute in H. discriminate H.
  - exists happy_world, (friendly_world "Use Amazon EFS.").
    intros H. vm_compute in H. discriminate H.
Qed.

(** ** C9: the chunks of an answer *)



(** In the friendly world the store holds five chunks, and the chain
    answers with three of them. *)
Example qa_answers_with_three_sources :
  exists answer st' sources,
    Rag.qa_call (Rag.qa (OLib "PGVector" [] [("embedding", Rag.bedrock_embeddings)]))
                (py_dict [("query", VStr Rag.query)]) happy_world fresh_process
      = (Ok answer, st') /\
    subscript answer "source_documents" = Ok (VList sources) /\
    length sources = 3%nat.
Proof. do 3 eexists. vm_compute. repeat split; reflexivity. Qed.

(** Where the world answers a search for three with five chunks, the chain
    still carries three: the limit is part of the search. *)
Example qa_keeps_to_the_limit :
  let w := {| respond := fun hist recv method args =>
                if String.eqb method "similarity_search_by_vector" then Ok (VList sample_chunks)
                else respond happy_world hist recv method args;
              clock := clock happy_world;
              boto3_version := boto3_version happy_world;
              shell_status := shell_status happy_world |} in
  exists answer st' sources,
    Rag.qa_call (Rag.qa (OLib "PGVector" [] [("embedding", Rag.bedrock_embeddings)]))
                (py_dict [("query", VStr Rag.query)]) w fresh_process
      = (Ok answer, st') /\
    subscript answer "source_documents" = Ok (VList sources) /\
    length sources = 3%nat.
Proof. do 3 eexists. vm_compute. repeat split; reflexivity. Qed.

(** * Further properties of the code *)

(** ** What [print] and [print_ww] write *)

Lemma str_app_assoc (s1 s2 s3 : string) : (s1 +:+ s2) +:+ s3 = s1 +:+ (s2 +:+ s3).
Proof.
  induction s1 as [|c s1 IH]; [reflexivity|].
  change (String c ((s1 +:+ s2) +:+ s3) = String c (s1 +:+ (s2 +:+ s3))). by f_equal.
Qed.

Lemma str_app_nil_r (s : string) : s +:+ EmptyString = s.
Proof.
  induction s as [|c s IH]; [reflexivity|].
  change (String c (s +:+ EmptyString) = String c s). by f_equal.
Qed.

Lemma set_streams_same id old st :
  streams st !! id = Some old -> set_streams (insert id old) st = st.
Proof.
  intros H. destruct st as [env out strs wf tr cr dsp]. unfold set_streams.
  cbn [environ sys_stdout streams warnings_filters trace clock_reads displayed] in *.
  f_equal. by apply insert_id.
Qed.

Lemma set_streams_twice id a b st :
  set_streams (insert id b) (set_streams (insert id a) st) = set_streams (insert id b) st.
Proof. unfold set_streams; simpl. by rewrite insert_insert_eq. Qed.

(** The text [print_items] writes. *)
Lemma print_items_open id sep args w : forall first old st,
  streams st !! id = Some old ->
  print_items (VStream id) sep first args w st =
    (Ok tt,
     set_streams
       (insert id (old +:+ (if first then EmptyString
                            else match args with [] => EmptyString | _ => sep end)
                       +:+ String.concat sep (map py_str args))) st).
Proof.
  induction args as [|a rest IH]; intros first old st Hs.
  - cbn [print_items map String.concat].
    destruct first; cbn [String.append]; rewrite str_app_nil_r, (set_streams_same _ _ _ Hs); done.
  - cbn [print_items]. unfold mbind, M_bind.
    assert (Hstep : forall pre st0, streams st0 !! id = Some pre ->
      (match file_write (VStream id) (py_str a) w st0 with
       | (Ok _, st') => print_items (VStream id) sep false rest w st'
       | (Raise e, st') => (Raise e, st')
       end) = (Ok tt, set_streams (insert id (pre +:+ String.concat sep (map py_str (a :: rest)))) st0)).
    { intros pre st0 H0. rewrite (file_write_open id pre _ w st0 H0).
      rewrite (IH false (pre +:+ py_str a) (set_streams (insert id (pre +:+ py_str a)) st0)).
      2:{ cbn [streams set_streams]. apply lookup_insert_eq. }
      rewrite set_streams_twice. do 3 f_equal.
      destruct rest as [|b rest']; cbn [map String.concat].
      - cbn [String.append]. by rewrite !str_app_nil_r.
      - by rewrite !str_app_assoc. }
    destruct first.
    + cbn [mret M_ret]. rewrite (Hstep old st Hs). done.
    + rewrite (file_write_open id old sep w st Hs).
      rewrite (Hstep (old +:+ sep) (set_streams (insert id (old +:+ sep)) st)).
      2:{ cbn [streams set_streams]. apply lookup_insert_eq. }
      rewrite set_streams_twice. by rewrite !str_app_assoc.
Qed.

(** [print] on an open stream, the one given as [file] or else the one
    [sys.stdout] is bound to. *)
Lemma print_open args kwargs sep end_ id old w st :
  print_accepts kwargs sep end_ ->
  match assoc_get "file" kwargs with
  | Some VNone | None => sys_stdout st
  | Some f => f
  end = VStream id ->
  streams st !! id = Some old ->
  print args kwargs w st =
    (Ok tt, set_streams (insert id (old +:+ printed_text args sep end_)) st).
Proof.
  intros (Hk & Hsep & Hend) Hfile Hs.
  unfold print. rewrite Hk.
  unfold mbind at 1. unfold M_bind at 1. unfold read_sys_stdout.
  rewrite Hfile, Hsep, Hend.
  unfold mbind, M_bind, lift.
  rewrite (print_items_open id sep args w true old st Hs).
  erewrite file_write_open.
  2:{ cbn [streams set_streams]. apply lookup_insert_eq. }
  rewrite set_streams_twice. unfold printed_text.
  do 3 f_equal. change (old +:+ EmptyString +:+ ?x) with (old +:+ x).
  by rewrite !str_app_assoc.
Qed.

Lemma StringIO_fresh w st :
  exists buf, streams st !! buf = None /\
              StringIO w st = (Ok (VStream buf), set_streams (insert buf EmptyString) st).
Proof.
  unfold StringIO. eexists. split; [|reflexivity].
  apply not_elem_of_dom. apply is_fresh.
Qed.

Lemma print_str_exact text id old w st :
  sys_stdout st = VStream id -> streams st !! id = Some old ->
  print_str text w st = (Ok tt, set_streams (insert id (old +:+ text +:+ newline)) st).
Proof.
  intros Ho Hs. unfold print_str.
  rewrite (print_open [VStr text] [] " " newline id old w st); [done| |done|done].
  repeat split; reflexivity.
Qed.

Lemma bind_ok {A B} (m : M A) (f : A -> M B) w st a st' :
  m w st = (Ok a, st') -> (m ≫= f) w st = f a w st'.
Proof. intros H. unfold mbind, M_bind. by rewrite H. Qed.

Lemma bind_raise {A B} (m : M A) (f : A -> M B) w st e st' :
  m w st = (Raise e, st') -> (m ≫= f) w st = (Raise e, st').
Proof. intros H. unfold mbind, M_bind. by rewrite H. Qed.

Lemma wrap_text_positive (wrap : string -> Z -> list string) line width :
  0 < width -> wrap_text wrap line width = Ok (wrap line width).
Proof. intros H. unfold wrap_text. by rewrite (proj2 (Z.ltb_lt 0 width) H). Qed.

Lemma wrap_text_refused (wrap : string -> Z -> list string) line width :
  width <= 0 -> exists msg, wrap_text wrap line width = Raise (PyExn "ValueError" msg).
Proof.
  intros H. unfold wrap_text. rewrite (proj2 (Z.ltb_ge 0 width) H). by eexists.
Qed.

(** The last loop of [print_ww] on an open [sys.stdout], the width
    positive. *)
Lemma for_each_print_open (wrap : string -> Z -> list string) width id w lines :
  0 < width ->
  forall old st,
    sys_stdout st = VStream id -> streams st !! id = Some old ->
    for_each lines (fun line => pieces ← lift (wrap_text wrap line width) ;
                                print_str (String.concat newline pieces)) w st =
      (Ok tt, set_streams (insert id (old +:+ wrapped_text wrap width lines)) st).
Proof.
  intros Hw.
  induction lines as [|line rest IH]; intros old st Ho Hs.
  - cbn [for_each wrapped_text]. rewrite str_app_nil_r, (set_streams_same _ _ _ Hs). done.
  - cbn [for_each wrapped_text]. rewrite (wrap_text_positive wrap line width Hw).
    unfold mbind, M_bind, lift.
    rewrite (print_str_exact _ id old w st Ho Hs).
    rewrite (IH (old +:+ String.concat newline (wrap line width) +:+ newline)).
    + rewrite set_streams_twice. by rewrite !str_app_assoc.
    + exact Ho.
    + cbn [streams set_streams]. apply lookup_insert_eq.
Qed.

(** The same loop, the width not positive: the first line is refused, and
    nothing is written. *)
Lemma for_each_print_refused (wrap : string -> Z -> list string) width w lines st :
  width <= 0 ->
  (for_each lines (fun line => pieces ← lift (wrap_text wrap line width) ;
                               print_str (String.concat newline pieces)) w st).2 = st /\
  (lines <> [] ->
   exists msg,
     (for_each lines (fun line => pieces ← lift (wrap_text wrap line width) ;
                                  print_str (String.concat newline pieces)) w st).1
     = Raise (PyExn "ValueError" msg)).
Proof.
  intros Hw. destruct lines as [|line rest]; [by split|].
  cbn [for_each]. destruct (wrap_text_refused wrap line width Hw) as [msg ->].
  split; [reflexivity|]. intros _. by exists msg.
Qed.

(** The same loop where [sys.stdout] is [None]: nothing is written. *)
Lemma for_each_print_nowhere (wrap : string -> Z -> list string) width w lines :
  forall st, sys_stdout st = VNone ->
    (for_each lines (fun line => pieces ← lift (wrap_text wrap line width) ;
                                 print_str (String.concat newline pieces)) w st).2 = st /\
    (0 < width ->
     (for_each lines (fun line => pieces ← lift (wrap_text wrap line width) ;
                                  print_str (String.concat newline pieces)) w st).1 = Ok tt).
Proof.
  induction lines as [|line lines IH]; intros st H0; cbn [for_each]; [by split|].
  assert (Hprint : forall text, print_str text w st = (Ok tt, st)).
  { intros text. unfold print_str, print.
    change (filter _ []) with (@nil (string * PyVal)). cbv beta iota.
    erewrite bind_ok; [|reflexivity]. cbn [assoc_get]. by rewrite H0. }
  destruct (0 <? width) eqn:Hw.
  - assert (Hbody : (lift (wrap_text wrap line width) ≫=
                       fun pieces => print_str (String.concat newline pieces)) w st
                    = (Ok tt, st)).
    { unfold wrap_text. rewrite Hw. unfold mbind, M_bind, lift. apply Hprint. }
    rewrite (bind_ok _ _ _ _ _ _ Hbody). by apply IH.
  - assert (Hbody : exists e,
                (lift (wrap_text wrap line width) ≫=
                   fun pieces => print_str (String.concat newline pieces)) w st
                = (Raise e, st)).
    { unfold wrap_text. rewrite Hw. by eexists. }
    destruct Hbody as [e Hbody]. rewrite (bind_raise _ _ _ _ _ _ Hbody).
    split; [reflexivity|]. intros Hpos. apply Z.ltb_ge in Hw. lia.
Qed.

Lemma try_finally_restore {A} (body : M A) (v : PyVal) w st r st' :
  body w st = (r, st') ->
  try_finally body (write_sys_stdout v) w st = (r, set_sys_stdout v st').
Proof. intros H. unfold try_finally. rewrite H. by destruct r. Qed.

Section PrintWWText.
Variable textwrap_wrap : string -> Z -> list string.

(** The [try] block of [print_ww] where the wrapped [print] writes to the
    open stream [id]: the buffer or a file given by the caller. *)
Lemma print_ww_body (args : list PyVal) (kwargs : list (string * PyVal)) (sep end_ : string)
    (buf id : nat) (old : string) (w : World) (st : Proc) :
  print_accepts kwargs sep end_ ->
  match assoc_get "file" kwargs with
  | Some VNone | None => VStream buf
  | Some f => f
  end = VStream id ->
  streams st !! buf = None ->
  streams st !! id = Some old \/ (id = buf /\ old = EmptyString) ->
  try_finally
    (write_sys_stdout (VStream buf) ;; print args kwargs ;; getvalue (VStream buf))
    (write_sys_stdout (sys_stdout st)) w (set_streams (insert buf EmptyString) st) =
  (Ok (if bool_decide (id = buf) then printed_text args sep end_ else EmptyString),
   set_streams (insert id (old +:+ printed_text args sep end_))
               (set_streams (insert buf EmptyString) st)).
Proof.
  intros Hacc Hfile Hfresh Hid.
  set (st1 := set_streams (insert buf EmptyString) st).
  assert (Hs1 : streams st1 !! id = Some old).
  { unfold st1. cbn [streams set_streams].
    destruct Hid as [Hid|[-> ->]]; [|apply lookup_insert_eq].
    rewrite lookup_insert_ne; [done|]. intros ->. rewrite Hid in Hfresh. discriminate. }
  assert (Hbody :
    (write_sys_stdout (VStream buf) ;; print args kwargs ;; getvalue (VStream buf)) w st1 =
    (Ok (if bool_decide (id = buf) then printed_text args sep end_ else EmptyString),
     set_streams (insert id (old +:+ printed_text args sep end_))
                 (set_sys_stdout (VStream buf) st1))).
  { rewrite (bind_ok (write_sys_stdout (VStream buf)) _ w st1 tt
                     (set_sys_stdout (VStream buf) st1) eq_refl).
    rewrite (bind_ok (print args kwargs) _ w _ tt _
                     (print_open args kwargs sep end_ id old w
                                 (set_sys_stdout (VStream buf) st1) Hacc Hfile Hs1)).
    unfold getvalue. cbn [streams set_streams set_sys_stdout].
    case_bool_decide as Hb.
    - subst id. rewrite lookup_insert_eq.
      destruct Hid as [Hid|[_ ->]]; [rewrite Hid in Hfresh; discriminate|]. reflexivity.
    - rewrite lookup_insert_ne by done. unfold st1. cbn [streams set_streams].
      rewrite lookup_insert_eq. reflexivity. }
  rewrite (try_finally_restore _ _ _ _ _ _ Hbody). reflexivity.
Qed.

(** [print_ww], no [file] given: the text [print] writes is captured in a
    new buffer, [sys.stdout] is bound again as it was, and the last loop
    runs over the lines of the text. *)
Lemma print_ww_captured (args : list PyVal) (width : Z)
    (kwargs : list (string * PyVal)) (sep end_ : string) (w : World) (st : Proc) :
  print_accepts kwargs sep end_ -> no_file kwargs ->
  exists buf,
    streams st !! buf = None /\
    print_ww textwrap_wrap args width kwargs w st =
      for_each (splitlines (printed_text args sep end_))
               (fun line => pieces ← lift (wrap_text textwrap_wrap line width) ;
                            print_str (String.concat newline pieces)) w
               (set_streams (insert buf (EmptyString +:+ printed_text args sep end_))
                            (set_streams (insert buf EmptyString) st)).
Proof.
  intros Hacc Hnf.
  destruct (StringIO_fresh w st) as (buf & Hfresh & HIO).
  exists buf. split; [exact Hfresh|].
  unfold print_ww.
  rewrite (bind_ok _ _ _ _ _ _ HIO).
  rewrite (bind_ok read_sys_stdout _ _ _ _ _ eq_refl).
  rewrite (bind_ok _ _ _ _ _ _
             (print_ww_body args kwargs sep end_ buf buf EmptyString w st Hacc
                ltac:(by destruct Hnf as [-> | ->]) Hfresh ltac:(by right))).
  by rewrite bool_decide_eq_true_2 by done.
Qed.

(** [print_ww] on an open [sys.stdout], no [file] given, the width
    positive. *)
Lemma print_ww_on_stdout (args : list PyVal) (width : Z)
    (kwargs : list (string * PyVal)) (sep end_ : string) (id : nat) (old : string)
    (w : World) (st : Proc) :
  print_accepts kwargs sep end_ -> no_file kwargs ->
  sys_stdout st = VStream id -> streams st !! id = Some old ->
  0 < width ->
  let st' := (print_ww textwrap_wrap args width kwargs w st).2 in
  (print_ww textwrap_wrap args width kwargs w st).1 = Ok tt /\
  streams st' !! id =
    Some (old +:+ wrapped_text textwrap_wrap width
                    (splitlines (printed_text args sep end_))) /\
  (forall id', id' <> id -> is_Some (streams st !! id') ->
               streams st' !! id' = streams st !! id') /\
  sys_stdout st' = VStream id.
Proof.
  intros Hacc Hnf Ho Hs Hw.
  destruct (print_ww_captured args width kwargs sep end_ w st Hacc Hnf)
    as (buf & Hfresh & ->).
  assert (Hne : buf <> id) by (intros ->; rewrite Hs in Hfresh; discriminate).
  rewrite (for_each_print_open textwrap_wrap width id w _ Hw old).
  2:{ exact Ho. }
  2:{ cbn [streams set_streams]. by rewrite !lookup_insert_ne. }
  cbn [fst snd streams sys_stdout set_streams].
  split; [reflexivity|]. split; [by rewrite lookup_insert_eq|]. split; [|exact Ho].
  intros id' Hid' [x Hx].
  assert (id' <> buf) by (intros ->; rewrite Hx in Hfresh; discriminate).
  by rewrite !lookup_insert_ne.
Qed.

(** [print_ww], no [file] given, the width not positive: no stream that was
    open is written to, and the call raises unless there is no line to
    wrap. *)
Lemma print_ww_refused (args : list PyVal) (width : Z)
    (kwargs : list (string * PyVal)) (sep end_ : string) (w : World) (st : Proc) :
  print_accepts kwargs sep end_ -> no_file kwargs ->
  width <= 0 ->
  let st' := (print_ww textwrap_wrap args width kwargs w st).2 in
  (forall id', is_Some (streams st !! id') -> streams st' !! id' = streams st !! id') /\
  sys_stdout st' = sys_stdout st /\
  (splitlines (printed_text args sep end_) <> [] ->
   exists msg,
     (print_ww textwrap_wrap args width kwargs w st).1 = Raise (PyExn "ValueError" msg)).
Proof.
  intros Hacc Hnf Hw.
  destruct (print_ww_captured args width kwargs sep end_ w st Hacc Hnf)
    as (buf & Hfresh & ->).
  destruct (for_each_print_refused textwrap_wrap width w
              (splitlines (printed_text args sep end_))
              (set_streams (insert buf (EmptyString +:+ printed_text args sep end_))
                           (set_streams (insert buf EmptyString) st)) Hw) as [-> Hr].
  cbn [streams sys_stdout set_streams].
  split; [|split; [reflexivity | exact Hr]].
  intros id' [x Hx].
  assert (id' <> buf) by (intros ->; rewrite Hx in Hfresh; discriminate).
  by rewrite !lookup_insert_ne.
Qed.

(** X1: [print_ww] on an open [sys.stdout], no [file] given and the width
    positive: the call returns, and what reaches the stream is the text
    [print] would have written, line by line, each line wrapped by
    [textwrap.wrap]; every other stream that was open keeps its content, and
    [sys.stdout] its binding. *)
Theorem print_ww_writes_wrapped_lines (args : list PyVal) (width : Z)
    (kwargs : list (string * PyVal)) (sep end_ : string) (id : nat) (old : string)
    (w : World) (st : Proc) :
  print_accepts kwargs sep end_ -> no_file kwargs ->
  sys_stdout st = VStream id -> streams st !! id = Some old ->
  0 < width ->
  let st' := (print_ww textwrap_wrap args width kwargs w st).2 in
  (print_ww textwrap_wrap args width kwargs w st).1 = Ok tt /\
  streams st' !! id =
    Some (old +:+ wrapped_text textwrap_wrap width
                    (splitlines (printed_text args sep end_))) /\
  (forall id', id' <> id -> is_Some (streams st !! id') ->
               streams st' !! id' = streams st !! id') /\
  sys_stdout st' = VStream id.
Proof. apply print_ww_on_stdout. Qed.

Lemma wrapped_text_ends (width : Z) (lines : list string) :
  wrapped_text textwrap_wrap width lines = EmptyString \/
  exists body, wrapped_text textwrap_wrap width lines = body +:+ newline.
Proof.
  induction lines as [|line rest IH]; [by left|right].
  cbn [wrapped_text].
  destruct IH as [->|[body ->]].
  - eexists. by rewrite str_app_nil_r.
  - exists (String.concat newline (textwrap_wrap line width) +:+ newline +:+ body).
    by rewrite !str_app_assoc.
Qed.

(** X2: [print_ww] does not keep the [end] it is given: whatever [sep] and
    [end] are, what it writes to an open [sys.stdout] is nothing at all or
    ends with a line feed. *)
Theorem print_ww_ends_lines (args : list PyVal) (width : Z)
    (kwargs : list (string * PyVal)) (sep end_ : string) (id : nat) (old : string)
    (w : World) (st : Proc) :
  print_accepts kwargs sep end_ -> no_file kwargs ->
  sys_stdout st = VStream id -> streams st !! id = Some old ->
  let st' := (print_ww textwrap_wrap args width kwargs w st).2 in
  exists text,
    streams st' !! id = Some (old +:+ text) /\
    (text = EmptyString \/ exists body, text = body +:+ newline).
Proof.
  intros Hacc Hnf Ho Hs st'.
  destruct (Z.lt_ge_cases 0 width) as [Hw|Hw].
  - destruct (print_ww_on_stdout args width kwargs sep end_ id old w st Hacc Hnf Ho Hs Hw)
      as (_ & Hst & _).
    eexists. split; [exact Hst|]. apply wrapped_text_ends.
  - destruct (print_ww_refused args width kwargs sep end_ w st Hacc Hnf Hw) as (Hst & _).
    exists EmptyString. split; [|by left].
    subst st'. rewrite Hst by (by eexists). by rewrite str_app_nil_r.
Qed.

(** X3: [print_ww] with an open stream given as [file]: the text is written to
    that stream as [print] writes it, not wrapped, whatever [width] is; the
    call returns, and no other stream that was open receives anything. *)
Theorem print_ww_file_keyword (args : list PyVal) (width : Z)
    (kwargs : list (string * PyVal)) (sep end_ : string) (fid : nat) (old : string)
    (w : World) (st : Proc) :
  print_accepts kwargs sep end_ ->
  assoc_get "file" kwargs = Some (VStream fid) ->
  streams st !! fid = Some old ->
  let st' := (print_ww textwrap_wrap args width kwargs w st).2 in
  (print_ww textwrap_wrap args width kwargs w st).1 = Ok tt /\
  streams st' !! fid = Some (old +:+ printed_text args sep end_) /\
  (forall id', id' <> fid -> is_Some (streams st !! id') ->
               streams st' !! id' = streams st !! id') /\
  sys_stdout st' = sys_stdout st.
Proof.
  intros Hacc Hfile Hs.
  destruct (StringIO_fresh w st) as (buf & Hfresh & HIO).
  assert (Hne : fid <> buf) by (intros ->; rewrite Hs in Hfresh; discriminate).
  unfold print_ww.
  rewrite (bind_ok _ _ _ _ _ _ HIO).
  rewrite (bind_ok read_sys_stdout _ _ _ _ _ eq_refl).
  rewrite (bind_ok _ _ _ _ _ _
             (print_ww_body args kwargs sep end_ buf fid old w st Hacc
                ltac:(by rewrite Hfile) Hfresh ltac:(by left))).
  rewrite bool_decide_eq_false_2 by done.
  change (splitlines EmptyString) with (@nil string). cbn [for_each].
  cbn [mret M_ret fst snd streams sys_stdout set_streams].
  split; [reflexivity|]. split; [by rewrite lookup_insert_eq|]. split; [|reflexivity].
  intros id' Hid' [x Hx].
  assert (id' <> buf) by (intros ->; rewrite Hx in Hfresh; discriminate).
  by rewrite !lookup_insert_ne.
Qed.

(** X4: a keyword that [print] does not know makes [print_ww] raise the
    [TypeError] of [print]; nothing is written to any stream that was open,
    and [sys.stdout] is bound as before. *)
Theorem print_ww_unknown_keyword (args : list PyVal) (width : Z)
    (kwargs rest : list (string * PyVal)) (k : string) (v : PyVal) (w : World) (st : Proc) :
  filter (fun kv => negb (bool_decide (fst kv ∈ print_keywords))) kwargs = (k, v) :: rest ->
  let st' := (print_ww textwrap_wrap args width kwargs w st).2 in
  (exists msg,
     (print_ww textwrap_wrap args width kwargs w st).1 = Raise (PyExn "TypeError" msg)) /\
  (forall id', is_Some (streams st !! id') -> streams st' !! id' = streams st !! id') /\
  sys_stdout st' = sys_stdout st.
Proof.
  intros Hk.
  destruct (StringIO_fresh w st) as (buf & Hfresh & HIO).
  unfold print_ww.
  rewrite (bind_ok _ _ _ _ _ _ HIO).
  rewrite (bind_ok read_sys_stdout _ _ _ _ _ eq_refl).
  assert (Hbody :
    (write_sys_stdout (VStream buf) ;; print args kwargs ;; getvalue (VStream buf)) w
      (set_streams (insert buf EmptyString) st) =
    (Raise (PyExn "TypeError"
              ("'" +:+ k +:+ "' is an invalid keyword argument for print()")),
     set_sys_stdout (VStream buf) (set_streams (insert buf EmptyString) st))).
  { rewrite (bind_ok (write_sys_stdout (VStream buf)) _ w _ tt _ eq_refl).
    apply bind_raise. unfold print. by rewrite Hk. }
  rewrite (bind_raise _ _ _ _ _ _ (try_finally_restore _ _ _ _ _ _ Hbody)).
  cbn [fst snd streams sys_stdout set_streams set_sys_stdout].
  split; [by eexists|]. split; [|reflexivity].
  intros id' [x Hx].
  assert (id' <> buf) by (intros ->; rewrite Hx in Hfresh; discriminate).
  by rewrite lookup_insert_ne.
Qed.

(** X5: where [sys.stdout] is [None], [print_ww] writes to no stream that
    was open, whatever the width, and leaves [sys.stdout] at [None]; it
    returns when the width is positive. *)
Theorem print_ww_without_stdout (args : list PyVal) (width : Z)
    (kwargs : list (string * PyVal)) (sep end_ : string) (w : World) (st : Proc) :
  print_accepts kwargs sep end_ -> no_file kwargs ->
  sys_stdout st = VNone ->
  let st' := (print_ww textwrap_wrap args width kwargs w st).2 in
  (forall id', is_Some (streams st !! id') -> streams st' !! id' = streams st !! id') /\
  sys_stdout st' = VNone /\
  (0 < width -> (print_ww textwrap_wrap args width kwargs w st).1 = Ok tt).
Proof.
  intros Hacc Hnf Ho.
  destruct (print_ww_captured args width kwargs sep end_ w st Hacc Hnf)
    as (buf & Hfresh & ->).
  destruct (for_each_print_nowhere textwrap_wrap width w
              (splitlines (printed_text args sep end_))
              (set_streams (insert buf (EmptyString +:+ printed_text args sep end_))
                           (set_streams (insert buf EmptyString) st)) Ho) as [-> Hr].
  cbn [streams sys_stdout set_streams].
  split; [|split; [exact Ho | exact Hr]].
  intros id' [x Hx].
  assert (id' <> buf) by (intros ->; rewrite Hx in Hfresh; discriminate).
  by rewrite !lookup_insert_ne.
Qed.

(** X15: a width that is not positive makes [print_ww] raise the
    [ValueError] of [textwrap.wrap] as soon as the text has a line: the text
    was captured, [sys.stdout] is bound again as before, and no stream that
    was open has been written to. *)
Theorem print_ww_refuses_width (args : list PyVal) (width : Z)
    (kwargs : list (string * PyVal)) (sep end_ : string) (w : World) (st : Proc) :
  print_accepts kwargs sep end_ -> no_file kwargs ->
  width <= 0 ->
  splitlines (printed_text args sep end_) <> [] ->
  let st' := (print_ww textwrap_wrap args width kwargs w st).2 in
  (exists msg,
     (print_ww textwrap_wrap args width kwargs w st).1 = Raise (PyExn "ValueError" msg)) /\
  (forall id', is_Some (streams st !! id') -> streams st' !! id' = streams st !! id') /\
  sys_stdout st' = sys_stdout st.
Proof.
  intros Hacc Hnf Hw Hlines.
  destruct (print_ww_refused args width kwargs sep end_ w st Hacc Hnf Hw) as (Hs & Ho & Hr).
  split; [by apply Hr|]. by split.
Qed.

End PrintWWText.

Lemma print_ww_writes_wrapped_lines_witness :
  let wrap := fun (line : string) (_ : Z) => [line] in
  let run := print_ww wrap [VStr "hello"; VInt 7] 100 [] happy_world fresh_process in
  run.1 = Ok tt /\
  streams run.2 !! 0%nat =
    Some (EmptyString +:+ wrapped_text wrap 100
                            (splitlines (printed_text [VStr "hello"; VInt 7] " " newline))) /\
  (forall id', id' <> 0%nat -> is_Some (streams fresh_process !! id') ->
               streams run.2 !! id' = streams fresh_process !! id') /\
  sys_stdout run.2 = VStream 0.
Proof.
  apply (print_ww_writes_wrapped_lines (fun line _ => [line]) [VStr "hello"; VInt 7] 100 []
           " " newline 0%nat EmptyString happy_world fresh_process).
  - repeat split; reflexivity.
  - left; reflexivity.
  - reflexivity.
  - reflexivity.
  - lia.
Defined.

Lemma print_ww_file_keyword_witness :
  let wrap := fun (line : string) (_ : Z) => [line] in
  let run := print_ww wrap [VStr "hello"; VInt 7] 3 [("file", VStream 0)]
               happy_world fresh_process in
  run.1 = Ok tt /\
  streams run.2 !! 0%nat =
    Some (EmptyString +:+ printed_text [VStr "hello"; VInt 7] " " newline) /\
  (forall id', id' <> 0%nat -> is_Some (streams fresh_process !! id') ->
               streams run.2 !! id' = streams fresh_process !! id') /\
  sys_stdout run.2 = sys_stdout fresh_process.
Proof.
  apply (print_ww_file_keyword (fun line _ => [line]) [VStr "hello"; VInt 7] 3
           [("file", VStream 0)] " " newline 0%nat EmptyString happy_world fresh_process).
  - repeat split; reflexivity.
  - reflexivity.
  - reflexivity.
Defined.

Lemma print_ww_unknown_keyword_witness :
  let wrap := fun (line : string) (_ : Z) => [line] in
  let run := print_ww wrap [VStr "hello"] 100 [("colour", VStr "red")]
               happy_world fresh_process in
  (exists msg, run.1 = Raise (PyExn "TypeError" msg)) /\
  (forall id', is_Some (streams fresh_process !! id') ->
               streams run.2 !! id' = streams fresh_process !! id') /\
  sys_stdout run.2 = sys_stdout fresh_process.
Proof.
  apply (print_ww_unknown_keyword (fun line _ => [line]) [VStr "hello"] 100
           [("colour", VStr "red")] [] "colour" (VStr "red") happy_world fresh_process).
  reflexivity.
Defined.

Lemma print_ww_without_stdout_witness :
  let wrap := fun (line : string) (_ : Z) => [line] in
  let st := set_sys_stdout VNone fresh_process in
  let run := print_ww wrap [VStr "hello"] 100 [] happy_world st in
  (forall id', is_Some (streams st !! id') -> streams run.2 !! id' = streams st !! id') /\
  sys_stdout run.2 = VNone /\
  (0 < 100 -> run.1 = Ok tt).
Proof.
  apply (print_ww_without_stdout (fun line _ => [line]) [VStr "hello"] 100 [] " " newline
           happy_world (set_sys_stdout VNone fresh_process)).
  - repeat split; reflexivity.
  - left; reflexivity.
  - reflexivity.
Defined.

Lemma print_ww_refuses_width_witness :
  let wrap := fun (line : string) (_ : Z) => [line] in
  let run := print_ww wrap [VStr "hello"] 0 [] happy_world fresh_process in
  (exists msg, run.1 = Raise (PyExn "ValueError" msg)) /\
  (forall id', is_Some (streams fresh_process !! id') ->
               streams run.2 !! id' = streams fresh_process !! id') /\
  sys_stdout run.2 = sys_stdout fresh_process.
Proof.
  apply (print_ww_refuses_width (fun line _ => [line]) [VStr "hello"] 0 [] " " newline
           happy_world fresh_process).
  - repeat split; reflexivity.
  - left; reflexivity.
  - lia.
  - discriminate.
Defined.

Lemma print_ww_ends_lines_witness :
  let wrap := fun (line : string) (_ : Z) => [line] in
  let run := print_ww wrap [VStr "hello"] 100 [("end", VStr EmptyString)]
               happy_world fresh_process in
  exists text,
    streams run.2 !! 0%nat = Some (EmptyString +:+ text) /\
    (text = EmptyString \/ exists body, text = body +:+ newline).
Proof.
  apply (print_ww_ends_lines (fun line _ => [line]) [VStr "hello"] 100
           [("end", VStr EmptyString)] " " EmptyString 0%nat EmptyString
           happy_world fresh_process).
  - repeat split; reflexivity.
  - left; reflexivity.
  - reflexivity.
  - reflexivity.
Defined.

(** ** Further properties of [get_bedrock_client] *)

Lemma events_since_same st st' : trace st' = trace st -> events_since st st' = [].
Proof. intros E. unfold events_since. rewrite E. apply drop_all. Qed.

(** X6: whatever its arguments, a client [get_bedrock_client] gives back is
    configured to retry (ten attempts, mode standard), and both the client
    and its configuration are for the region the helper settled on. *)
Theorem get_bedrock_client_configuration (assumed_role region : option string)
    (runtime : option bool) (service_name : option string) (w : World) (st : Proc) :
  match (get_bedrock_client assumed_role region runtime service_name w st).1 with
  | Ok c =>
      client_config c =
        Some {| cfg_region_name := target_region_of (environ st) region;
                cfg_max_attempts := 10; cfg_mode := "standard" |} /\
      client_region c = target_region_of (environ st) region
  | Raise _ => True
  end.
Proof.
  change (wp (get_bedrock_client assumed_role region runtime service_name) w st
            (fun r _ =>
               match r with
               | Ok c =>
                   client_config c =
                     Some {| cfg_region_name := target_region_of (environ st) region;
                             cfg_max_attempts := 10; cfg_mode := "standard" |} /\
                   client_region c = target_region_of (environ st) region
               | Raise _ => True
               end)).
  unfold get_bedrock_client.
  repeat wp_prim; try exact I.
  all: cbn; unfold target_region_of; split; try reflexivity.
  all: destruct (environ st !! "AWS_REGION"); try reflexivity.
  all: by destruct (environ st !! "AWS_DEFAULT_REGION").
Qed.

(** X7: the service and the profile of the client: a [service_name] that is
    not empty is taken as it is, an empty one counts as none given and the
    [runtime] flag decides; the profile is [AWS_PROFILE] when that is set and
    not empty, and none otherwise. *)
Theorem get_bedrock_client_service_and_profile (assumed_role region : option string)
    (runtime : option bool) (service_name : option string) (w : World) (st : Proc) :
  match (get_bedrock_client assumed_role region runtime service_name w st).1 with
  | Ok c =>
      client_service c =
        match service_name with
        | Some (String a s) => String a s
        | _ => if truthy_bool runtime then "bedrock-runtime" else "bedrock"
        end /\
      client_profile c =
        match environ st !! "AWS_PROFILE" with
        | Some (String a s) => Some (String a s)
        | _ => None
        end
  | Raise _ => True
  end.
Proof.
  change (wp (get_bedrock_client assumed_role region runtime service_name) w st
            (fun r _ =>
               match r with
               | Ok c =>
                   client_service c =
                     match service_name with
                     | Some (String a s) => String a s
                     | _ => if truthy_bool runtime then "bedrock-runtime" else "bedrock"
                     end /\
                   client_profile c =
                     match environ st !! "AWS_PROFILE" with
                     | Some (String a s) => Some (String a s)
                     | _ => None
                     end
               | Raise _ => True
               end)).
  unfold get_bedrock_client.
  repeat wp_prim; try exact I.
  all: cbn [environ set_streams] in *.
  all: cbn; split; [by destruct service_name as [[|? ?]|]|].
  all: by destruct (environ st !! "AWS_PROFILE") as [[|? ?]|].
Qed.

(** X8: with no role to assume (none given, or an empty one),
    [get_bedrock_client] calls nothing outside: the trace, the environment
    and the rest of the process state but the streams are as before, and the
    client carries no credentials of its own. *)
Theorem get_bedrock_client_offline (assumed_role region : option string)
    (runtime : option bool) (service_name : option string) (w : World) (st : Proc) :
  truthy_str assumed_role = false ->
  let run := get_bedrock_client assumed_role region runtime service_name w st in
  events_since st run.2 = [] /\
  environ run.2 = environ st /\
  sys_stdout run.2 = sys_stdout st /\
  match run.1 with
  | Ok c =>
      client_access_key_id c = None /\ client_secret_access_key c = None /\
      client_session_token c = None
  | Raise _ => True
  end.
Proof.
  intros Hrole run. subst run.
  change (wp (get_bedrock_client assumed_role region runtime service_name) w st
            (fun r st' =>
               events_since st st' = [] /\
               environ st' = environ st /\
               sys_stdout st' = sys_stdout st /\
               match r with
               | Ok c =>
                   client_access_key_id c = None /\ client_secret_access_key c = None /\
                   client_session_token c = None
               | Raise _ => True
               end)).
  unfold get_bedrock_client. rewrite Hrole.
  repeat wp_prim.
  all: split; [by apply events_since_same|]; split; [reflexivity|]; split; [reflexivity|].
  all: first [exact I | by repeat split].
Qed.

Lemma get_bedrock_client_offline_witness :
  events_since fresh_process
    (get_bedrock_client (Some EmptyString) None (Some true) None happy_world fresh_process).2
  = [].
Proof.
  apply (get_bedrock_client_offline (Some EmptyString) None (Some true) None
           happy_world fresh_process).
  reflexivity.
Defined.

(** X9: given a role, [get_bedrock_client] makes at most one call outside,
    the [assume_role] of an STS client of the session, for this role and the
    session name [langchain-llm-1]; a client it gives back carries the three
    credentials of the answer; when STS refuses, its exception leaves the
    helper. *)
Theorem get_bedrock_client_assumes_role (assumed_role region : option string)
    (runtime : option bool) (service_name : option string) (w : World) (st : Proc) :
  truthy_str assumed_role = true ->
  let run := get_bedrock_client assumed_role region runtime service_name w st in
  let evs := events_since st run.2 in
  let asked := assume_role_event (environ st) region (fmt_opt assumed_role) in
  (evs = [] \/ exists a, evs = [asked a]) /\
  match run.1 with
  | Ok c =>
      exists response credentials key secret token,
        evs = [asked (Ok response)] /\
        subscript response "Credentials" = Ok credentials /\
        subscript credentials "AccessKeyId" = Ok key /\
        subscript credentials "SecretAccessKey" = Ok secret /\
        subscript credentials "SessionToken" = Ok token /\
        client_access_key_id c = Some key /\
        client_secret_access_key c = Some secret /\
        client_session_token c = Some token
  | Raise e => forall e', evs = [asked (Raise e')] -> e = e'
  end.
Proof.
  intros Hrole run evs asked. subst run evs.
  change (wp (get_bedrock_client assumed_role region runtime service_name) w st
            (fun r st' =>
               (events_since st st' = [] \/ exists a, events_since st st' = [asked a]) /\
               match r with
               | Ok c =>
                   exists response credentials key secret token,
                     events_since st st' = [asked (Ok response)] /\
                     subscript response "Credentials" = Ok credentials /\
                     subscript credentials "AccessKeyId" = Ok key /\
                     subscript credentials "SecretAccessKey" = Ok secret /\
                     subscript credentials "SessionToken" = Ok token /\
                     client_access_key_id c = Some key /\
                     client_secret_access_key c = Some secret /\
                     client_session_token c = Some token
               | Raise e => forall e', events_since st st' = [asked (Raise e')] -> e = e'
               end)).
  unfold get_bedrock_client. rewrite Hrole.
  repeat wp_prim.
  all: lazymatch goal with
       | |- context [events_since ?s0 ?s1] =>
           let t := eval cbn [trace set_trace set_streams] in (trace s1) in
           lazymatch t with
           | trace s0 => rewrite (events_since_same s0 s1 eq_refl)
           | trace s0 ++ ?l => rewrite (events_since_app s0 s1 l eq_refl)
           end
       end.
  all: unfold asked, assume_role_event, sts_client_for, new_client, target_region_of.
  all: cbn [environ set_streams set_trace s_region_name s_profile_name assoc_get] in *.
  all: try lazymatch goal with
       | H : truthy_str (environ _ !! "AWS_PROFILE") = _ |- _ => rewrite H
       end.
  all: (split; [first [by left | right; by eexists]|]).
  all: try (intros e' He'; congruence).
  all: do 5 eexists; split; [reflexivity|]; by repeat split.
Qed.

Lemma get_bedrock_client_assumes_role_witness :
  let run := get_bedrock_client (Some "arn:aws:iam::123456789012:role/demo")
               (Some "us-east-1") (Some true) None sts_world fresh_process in
  let evs := events_since fresh_process run.2 in
  let asked := assume_role_event (environ fresh_process) (Some "us-east-1")
                 "arn:aws:iam::123456789012:role/demo" in
  (evs = [] \/ exists a, evs = [asked a]) /\
  match run.1 with
  | Ok c =>
      exists response credentials key secret token,
        evs = [asked (Ok response)] /\
        subscript response "Credentials" = Ok credentials /\
        subscript credentials "AccessKeyId" = Ok key /\
        subscript credentials "SecretAccessKey" = Ok secret /\
        subscript credentials "SessionToken" = Ok token /\
        client_access_key_id c = Some key /\
        client_secret_access_key c = Some secret /\
        client_session_token c = Some token
  | Raise e => forall e', evs = [asked (Raise e')] -> e = e'
  end.
Proof.
  apply (get_bedrock_client_assumes_role (Some "arn:aws:iam::123456789012:role/demo")
           (Some "us-east-1") (Some true) None sts_world fresh_process).
  reflexivity.
Defined.

(** ** Further properties of the cells *)

(** X10: cell 7 sets [AWS_PROFILE] whatever becomes of it; when it completes,
    the two clients it leaves are the Bedrock and the Bedrock runtime client
    of that profile in us-east-1, its one call was [get_caller_identity] on
    the STS client of the same profile, and the account id is what
    [.get('Account')] reads off the answer ([None] when the key is not
    there). *)
Theorem cell_clients_outcome (w : World) (st : Proc) :
  let run := CrossRegion.cell_clients w st in
  environ run.2 = <["AWS_PROFILE" := "profile_acct_4"]> (environ st) /\
  match run.1 with
  | Ok (account_id, bedrock_client, bedrock_runtime) =>
      bedrock_client = profile_client "bedrock" /\
      bedrock_runtime = profile_client "bedrock-runtime" /\
      exists identity,
        events_since st run.2 =
          [{| ev_recv := OClient (profile_client "sts");
              ev_method := "get_caller_identity"; ev_args := [];
              ev_result := Ok identity |}] /\
        dict_get identity "Account" = Ok account_id
  | Raise _ => True
  end.
Proof.
  intros run. subst run.
  change (wp CrossRegion.cell_clients w st
            (fun r st' =>
               environ st' = <["AWS_PROFILE" := "profile_acct_4"]> (environ st) /\
               match r with
               | Ok (account_id, bedrock_client, bedrock_runtime) =>
                   bedrock_client = profile_client "bedrock" /\
                   bedrock_runtime = profile_client "bedrock-runtime" /\
                   exists identity,
                     events_since st st' =
                       [{| ev_recv := OClient (profile_client "sts");
                           ev_method := "get_caller_identity"; ev_args := [];
                           ev_result := Ok identity |}] /\
                     dict_get identity "Account" = Ok account_id
               | Raise _ => True
               end)).
  repeat wp_step.
  all: split; [reflexivity|]; try exact I.
  split; [reflexivity|]. split; [reflexivity|].
  eexists. split; [|eassumption].
  by apply events_since_app.
Qed.

Lemma assume_role_policy_doc_serializable account_id :
  json_serializable (CrossRegion.assume_role_policy_doc account_id)
  = json_serializable account_id.
Proof. cbn. by destruct (json_serializable account_id). Qed.

(** The list [l], its last element apart. *)
Ltac split_last l :=
  lazymatch l with
  | [?x] => constr:((@nil Event, x))
  | ?a :: ?r =>
      let p := split_last r in
      lazymatch p with (?pre, ?x) => constr:((a :: pre, x)) end
  end.

(** X12: cell 31 with an account id that can be written as JSON makes its
    five calls in order, up to the first failure it does not pass over. It
    returns the CloudWatch Logs client of us-east-1 exactly when it made all
    five, the only failures among them being the two it passes over
    ([EntityAlreadyExists] of [create_role], [ResourceAlreadyExists] of
    [create_log_group]); otherwise it ends with the exception of its last
    call, which is none of these two: the same error codes from another
    call, or other codes from these calls, are not caught. *)
Theorem cell_logging_outcome (account_id : PyVal) (bedrock_client : Client)
    (w : World) (st : Proc) :
  json_serializable account_id = true ->
  let run := CrossRegion.cell_logging account_id bedrock_client w st in
  let evs := events_since st run.2 in
  map request_of evs `prefix_of` logging_calls account_id bedrock_client /\
  match run.1 with
  | Ok logs_client =>
      logs_client = boto3_default_client "logs" (Some "us-east-1") /\
      map request_of evs = logging_calls account_id bedrock_client /\
      Forall (fun ev => failed ev = true -> passed_over ev) evs
  | Raise e =>
      exists pre ev, evs = pre ++ [ev] /\ ev_result ev = Raise e /\ ~ passed_over ev
  end.
Proof.
  intros Hser run evs. subst run evs.
  change (wp (CrossRegion.cell_logging account_id bedrock_client) w st
            (fun r st' =>
               map request_of (events_since st st')
                 `prefix_of` logging_calls account_id bedrock_client /\
               match r with
               | Ok logs_client =>
                   logs_client = boto3_default_client "logs" (Some "us-east-1") /\
                   map request_of (events_since st st')
                     = logging_calls account_id bedrock_client /\
                   Forall (fun ev => failed ev = true -> passed_over ev)
                          (events_since st st')
               | Raise e =>
                   exists pre ev, events_since st st' = pre ++ [ev] /\
                                  ev_result ev = Raise e /\ ~ passed_over ev
               end)).
  unfold CrossRegion.cell_logging.
  rewrite !json_dumps_serializable
    by (first [by rewrite assume_role_policy_doc_serializable | reflexivity]).
  repeat wp_prim.
  all: lazymatch goal with
       | |- context [events_since ?s0 ?s1] =>
           let t := eval cbn [trace set_trace set_streams] in (trace s1) in
           let l := events_after (trace s0) t in
           let l' := eval cbn [app] in l in
           rewrite (events_since_app s0 s1 l' (snoc_trace (trace s0) l'))
       end.
  all: (split; [eexists; reflexivity|]).
  all: try (split; [reflexivity|]; split; [reflexivity|];
            repeat (first [ apply List.Forall_nil
                          | apply List.Forall_cons;
                            [intros Hf; cbn in Hf;
                             first [ discriminate Hf
                                   | left; split; reflexivity
                                   | right; split; reflexivity ]|] ])).
  all: lazymatch goal with
       | |- exists pre ev, ?l = _ /\ _ =>
           let p := split_last l in
           lazymatch p with (?pre, ?x) => exists pre, x end
       end; (split; [reflexivity|]).
  all: (split; [reflexivity|]).
  all: intros [[Hm Hr]|[Hm Hr]]; try discriminate Hm; cbn in Hr.
  all: injection Hr as ->; discriminate.
Qed.

Lemma cell_logging_outcome_witness :
  let run := CrossRegion.cell_logging (VStr "123456789012") (profile_client "bedrock")
               second_run_world fresh_process in
  let evs := events_since fresh_process run.2 in
  map request_of evs
    `prefix_of` logging_calls (VStr "123456789012") (profile_client "bedrock") /\
  match run.1 with
  | Ok logs_client =>
      logs_client = boto3_default_client "logs" (Some "us-east-1") /\
      map request_of evs = logging_calls (VStr "123456789012") (profile_client "bedrock") /\
      Forall (fun ev => failed ev = true -> passed_over ev) evs
  | Raise e =>
      exists pre ev, evs = pre ++ [ev] /\ ev_result ev = Raise e /\ ~ passed_over ev
  end.
Proof.
  apply (cell_logging_outcome (VStr "123456789012") (profile_client "bedrock")
           second_run_world fresh_process).
  reflexivity.
Defined.

(** X13: the response times cells 15 and 19 print are taken around the call
    alone: in every run of either cell the clock is read once before each
    call and once more after each call that returned, and at no other
    point. *)
Theorem calls_are_timed (bedrock_runtime : Client) (w : World) (st : Proc) :
  (let run := CrossRegion.cell_converse bedrock_runtime w st in
   let evs := events_since st run.2 in
   clock_reads run.2 = (clock_reads st + length evs + answered evs)%nat /\
   Forall (fun ev => ev_method ev = "converse") evs) /\
  (let run := CrossRegion.cell_invoke_model bedrock_runtime w st in
   let evs := events_since st run.2 in
   clock_reads run.2 = (clock_reads st + length evs + answered evs)%nat /\
   Forall (fun ev => ev_method ev = "invoke_model") evs).
Proof.
  split; intros run evs; subst run evs.
  - change (wp (CrossRegion.cell_converse bedrock_runtime) w st
              (fun _ st' =>
                 clock_reads st' =
                   (clock_reads st + length (events_since st st')
                    + answered (events_since st st'))%nat /\
                 Forall (fun ev => ev_method ev = "converse") (events_since st st'))).
    unfold CrossRegion.cell_converse.
    repeat first [apply wp_time_any; intros ? | wp_prim].
    all: lazymatch goal with
         | |- context [events_since ?s0 ?s1] =>
             let t := eval cbn [trace set_trace set_streams set_clock_reads] in (trace s1) in
             let l := events_after (trace s0) t in
             let l' := eval cbn [app] in l in
             rewrite (events_since_app s0 s1 l' (snoc_trace (trace s0) l'))
         end.
    all: split; [cbn; lia | repeat constructor].
  - change (wp (CrossRegion.cell_invoke_model bedrock_runtime) w st
              (fun _ st' =>
                 clock_reads st' =
                   (clock_reads st + length (events_since st st')
                    + answered (events_since st st'))%nat /\
                 Forall (fun ev => ev_method ev = "invoke_model") (events_since st st'))).
    unfold CrossRegion.cell_invoke_model.
    repeat first [apply wp_time_any; intros ? | wp_prim].
    all: lazymatch goal with
         | |- context [events_since ?s0 ?s1] =>
             let t := eval cbn [trace set_trace set_streams set_clock_reads] in (trace s1) in
             let l := events_after (trace s0) t in
             let l' := eval cbn [app] in l in
             rewrite (events_since_app s0 s1 l' (snoc_trace (trace s0) l'))
         end.
    all: split; [cbn; lia | repeat constructor].
Qed.

Lemma not_called (m : string) (evs : list Event) :
  bool_decide (m ∈ map ev_method evs) = false -> m ∈ map ev_method evs -> False.
Proof. intros H Hin. by apply bool_decide_eq_false_1 in H. Qed.

(** One more call of the notebook's trace: it is the next call of the plan,
    and when it is neither [create_role] nor [create_log_group] it
    returned, more calls having followed it. *)
Ltac peel_call evs Hpre Hh Hin :=
  destruct evs as [|[recv meth args res] evs];
  [ exfalso; refine (not_called _ _ _ Hin); reflexivity
  | cbn [map app request_of ev_recv ev_method ev_args] in Hpre;
    let Hr := fresh "Hr" in
    let Hm := fresh "Hm" in
    let Ha := fresh "Ha" in
    injection Hpre as Hr Hm Ha Hpre;
    subst recv meth args;
    cbn [handled ev_result] in Hh;
    destruct res as [?|?];
    [ | destruct Hh as [[Hnil _]|(_ & [[Hm _]|[Hm _]] & _)];
        [ subst evs; exfalso; refine (not_called _ _ _ Hin); reflexivity
        | discriminate Hm | discriminate Hm ] ] ].

(** X14: provisioning comes after the walk through the models: in a run of
    the cross-region notebook that calls [create_role], the fourteen calls
    before it (the listings, every Converse, InvokeModel and LangChain
    invocation, the package installation) were all made and all
    returned. *)
Theorem provisioning_follows_invocations (w : World) (st : Proc) :
  let evs := events_since st (CrossRegion.notebook w st).2 in
  "create_role" ∈ map ev_method evs ->
  exists account_id,
    take 14 (map request_of evs) = take 14 (cross_region_calls account_id) /\
    Forall (fun ev => failed ev = false) (take 14 evs) /\
    Forall (fun m => m ∈ map rq_method (take 14 (cross_region_calls account_id)))
           invocations.
Proof.
  intros evs. subst evs.
  destruct (cross_region_run w st) as (account_id & evs & Htr & [k Hpre] & _ & Hh & _).
  rewrite (events_since_app _ _ _ Htr). clear Htr.
  intros Hin. exists account_id.
  unfold cross_region_calls in *. cbv zeta in *.
  do 14 peel_call evs Hpre Hh Hin.
  split; [reflexivity|]. split.
  - cbn [take]. repeat constructor.
  - unfold invocations. cbn.
    repeat (apply List.Forall_cons; [apply (bool_decide_unpack _); vm_compute; exact I|]).
    apply List.Forall_nil.
Qed.

Lemma provisioning_follows_invocations_witness :
  exists account_id,
    take 14 (map request_of
               (events_since fresh_process
                  (CrossRegion.notebook happy_world fresh_process).2))
      = take 14 (cross_region_calls account_id) /\
    Forall (fun ev => failed ev = false)
           (take 14 (events_since fresh_process
                       (CrossRegion.notebook happy_world fresh_process).2)) /\
    Forall (fun m => m ∈ map rq_method (take 14 (cross_region_calls account_id)))
           invocations.
Proof.
  apply (provisioning_follows_invocations happy_world fresh_process).
  apply (bool_decide_unpack _). vm_compute. exact I.
Defined.
